(** * fass_lookup.py: the Swedish medication lookup script

    A shallow embedding of [scripts/fass_lookup.py] and of the parts of
    the Python runtime it calls ([str.lower], [str.strip], [str.title],
    [str.join], the [in] operator, [urllib.parse.quote]), followed by the
    properties of the matcher, the reference-link builder, the formatter
    and the command-line entry point. *)

From Stdlib Require Import List NArith ZArith Bool String Ascii Lia.
Import ListNotations.
Local Open Scope N_scope.

(** ** Python values *)

(** A Python [str] is a sequence of code points.  Every value in
    [0 .. 0x10FFFF] can occur, the surrogates [0xD800 .. 0xDFFF] included:
    [sys.argv] holds them for command-line bytes that are not UTF-8. *)
Definition codepoint := N.
Definition str := list codepoint.
Definition bytes := list N.

(** An ASCII literal as a [str]. *)
Definition py (s : string) : str := map N_of_ascii (list_ascii_of_string s).

(** The exceptions the script can meet: the one a strict encoder raises at
    a code point, and the one [sys.exit] raises. *)
Inductive exn : Type :=
| UnicodeEncodeError (c : codepoint)
| SystemExit (code : N).

Inductive result (A : Type) : Type :=
| Ok (a : A)
| Raise (e : exn).
Arguments Ok {A} a.
Arguments Raise {A} e.

Definition bind {A B : Type} (m : result A) (k : A -> result B) : result B :=
  match m with
  | Ok a => k a
  | Raise e => Raise e
  end.

Notation "x <- m ;; k" := (bind m (fun x => k))
  (at level 61, m at next level, right associativity).

(** ** The string primitives of the runtime *)

Module PyStr.

(** The case tables of the Unicode character database outside ASCII.  The
    script never names a non-ASCII letter, so the tables stay a parameter;
    on ASCII the definitions below are the runtime's. *)
Class UnicodeData : Type := {
  ucd_to_lower : codepoint -> str;
  ucd_to_title : codepoint -> str;
  ucd_is_cased : codepoint -> bool;
  ucd_is_case_ignorable : codepoint -> bool
}.

Definition is_ascii (c : codepoint) : bool := c <? 128.
Definition ascii_isupper (c : codepoint) : bool := (65 <=? c) && (c <=? 90).
Definition ascii_islower (c : codepoint) : bool := (97 <=? c) && (c <=? 122).
Definition ascii_tolower (c : codepoint) : codepoint :=
  if ascii_isupper c then c + 32 else c.
Definition ascii_toupper (c : codepoint) : codepoint :=
  if ascii_islower c then c - 32 else c.

(** [str.isspace] on one code point: the 29 white-space code points. *)
Definition isspace (c : codepoint) : bool :=
  ((0x09 <=? c) && (c <=? 0x0D)) || ((0x1C <=? c) && (c <=? 0x20))
  || (c =? 0x85) || (c =? 0xA0) || (c =? 0x1680)
  || ((0x2000 <=? c) && (c <=? 0x200A))
  || (c =? 0x2028) || (c =? 0x2029) || (c =? 0x202F) || (c =? 0x205F)
  || (c =? 0x3000).

Fixpoint str_eqb (a b : str) : bool :=
  match a, b with
  | [], [] => true
  | x :: a', y :: b' => (x =? y) && str_eqb a' b'
  | _, _ => false
  end.

(** [x in l] for a list [l] of strings. *)
Definition list_contains (l : list str) (x : str) : bool :=
  existsb (str_eqb x) l.

Fixpoint startswith (s prefix : str) {struct prefix} : bool :=
  match prefix, s with
  | [], _ => true
  | p :: prefix', c :: s' => (c =? p) && startswith s' prefix'
  | _ :: _, [] => false
  end.

(** [needle in hay] for two strings. *)
Fixpoint str_contains (hay needle : str) : bool :=
  startswith hay needle
  || match hay with
     | [] => false
     | _ :: hay' => str_contains hay' needle
     end.

(** [sep.join(parts)]. *)
Fixpoint join (sep : str) (parts : list str) : str :=
  match parts with
  | [] => []
  | [x] => x
  | x :: rest => x ++ sep ++ join sep rest
  end.

Fixpoint lstrip (s : str) : str :=
  match s with
  | [] => []
  | c :: s' => if isspace c then lstrip s' else s
  end.

Definition rstrip (s : str) : str := rev (lstrip (rev s)).

(** [s.strip()]. *)
Definition strip (s : str) : str := rstrip (lstrip s).

Section Casing.
Context {ucd : UnicodeData}.

Definition is_cased (c : codepoint) : bool :=
  if is_ascii c then ascii_isupper c || ascii_islower c else ucd_is_cased c.

Definition is_case_ignorable (c : codepoint) : bool :=
  if is_ascii c
  then (c =? 0x27) || (c =? 0x2E) || (c =? 0x3A) || (c =? 0x5E) || (c =? 0x60)
  else ucd_is_case_ignorable c.

Definition to_lower_full (c : codepoint) : str :=
  if is_ascii c then [ascii_tolower c] else ucd_to_lower c.

Definition to_title_full (c : codepoint) : str :=
  if is_ascii c then [ascii_toupper c] else ucd_to_title c.

(** The first code point of [s] that is not case-ignorable. *)
Fixpoint skip_case_ignorable (s : str) : option codepoint :=
  match s with
  | [] => None
  | c :: s' => if is_case_ignorable c then skip_case_ignorable s' else Some c
  end.

(** The final-sigma rule: [before] is the text left of the sigma, nearest
    code point first, [after] the text right of it. *)
Definition handle_capital_sigma (before after : str) : codepoint :=
  let final_sigma :=
    match skip_case_ignorable before with
    | Some c => is_cased c
    | None => false
    end in
  let final_sigma :=
    final_sigma &&
    match skip_case_ignorable after with
    | Some c => negb (is_cased c)
    | None => true
    end in
  if final_sigma then 0x3C2 else 0x3C3.

Definition lower_ucs4 (before : str) (c : codepoint) (after : str) : str :=
  if c =? 0x3A3 then [handle_capital_sigma before after]
  else to_lower_full c.

Fixpoint do_lower (before s : str) : str :=
  match s with
  | [] => []
  | c :: after => lower_ucs4 before c after ++ do_lower (c :: before) after
  end.

(** [s.lower()]. *)
Definition lower (s : str) : str := do_lower [] s.

Fixpoint do_title (previous_is_cased : bool) (before s : str) : str :=
  match s with
  | [] => []
  | c :: after =>
      (if previous_is_cased then lower_ucs4 before c after
       else to_title_full c)
      ++ do_title (is_cased c) (c :: before) after
  end.

(** [s.title()]. *)
Definition title (s : str) : str := do_title false [] s.
End Casing.

(** The Latin-1 part of the tables (U+0080 .. U+00FF), enough to run the
    definitions on Swedish text. *)
Definition latin1_isupper (c : codepoint) : bool :=
  (0xC0 <=? c) && (c <=? 0xDE) && negb (c =? 0xD7).
Definition latin1_islower (c : codepoint) : bool :=
  (0xDF <=? c) && (c <=? 0xFF) && negb (c =? 0xF7).

Definition latin1 : UnicodeData := {|
  ucd_to_lower := fun c => if latin1_isupper c then [c + 32] else [c];
  ucd_to_title := fun c =>
    if c =? 0xDF then [0x53; 0x73]
    else if c =? 0xFF then [0x178]
    else if c =? 0xB5 then [0x39C]
    else if latin1_islower c then [c - 32] else [c];
  ucd_is_cased := fun c =>
    latin1_isupper c || latin1_islower c
    || (c =? 0xAA) || (c =? 0xB5) || (c =? 0xBA);
  ucd_is_case_ignorable := fun c =>
    (c =? 0xA8) || (c =? 0xAD) || (c =? 0xAF) || (c =? 0xB4)
    || (c =? 0xB7) || (c =? 0xB8)
|}.

End PyStr.

(** ** The UTF-8 codec and [urllib.parse.quote] *)

Module Codecs.

Definition is_surrogate (c : codepoint) : bool := (0xD800 <=? c) && (c <=? 0xDFFF).

(** One code point under [str.encode('utf-8', 'strict')]: one to four
    bytes, and an exception for a surrogate.  A value above [0x10FFFF] is
    no code point and no [str] holds one; it is refused as well. *)
Definition utf8_encode_cp (c : codepoint) : result bytes :=
  if c <? 0x80 then Ok [c]
  else if c <? 0x800 then
    Ok [N.lor 0xC0 (N.shiftr c 6); N.lor 0x80 (N.land c 0x3F)]
  else if is_surrogate c then Raise (UnicodeEncodeError c)
  else if c <? 0x10000 then
    Ok [N.lor 0xE0 (N.shiftr c 12);
        N.lor 0x80 (N.land (N.shiftr c 6) 0x3F);
        N.lor 0x80 (N.land c 0x3F)]
  else if c <? 0x110000 then
    Ok [N.lor 0xF0 (N.shiftr c 18);
        N.lor 0x80 (N.land (N.shiftr c 12) 0x3F);
        N.lor 0x80 (N.land (N.shiftr c 6) 0x3F);
        N.lor 0x80 (N.land c 0x3F)]
  else Raise (UnicodeEncodeError c).

(** [s.encode('utf-8', 'strict')]: the first code point that cannot be
    encoded raises. *)
Fixpoint utf8_encode (s : str) : result bytes :=
  match s with
  | [] => Ok []
  | c :: s' =>
      bs <- utf8_encode_cp c ;;
      rest <- utf8_encode s' ;;
      Ok (bs ++ rest)
  end.

End Codecs.

Module Urllib.

(** [_ALWAYS_SAFE]: letters, digits and [_.-~]. *)
Definition always_safe (b : N) : bool :=
  PyStr.ascii_isupper b || PyStr.ascii_islower b
  || ((48 <=? b) && (b <=? 57))
  || (b =? 95) || (b =? 46) || (b =? 45) || (b =? 126).

Definition hex_digit (n : N) : codepoint :=
  if n <? 10 then 48 + n else 55 + n.

(** The quoter of one byte: itself when safe, ['%{:02X}'.format(b)]
    otherwise. *)
Definition quoter (safe : str) (b : N) : str :=
  if always_safe b || existsb (N.eqb b) safe then [b]
  else [37; hex_digit (b / 16); hex_digit (b mod 16)].

(** [quote_from_bytes(bs, safe)]; [safe] is first reduced to its ASCII
    characters, [safe.encode('ascii', 'ignore')]. *)
Definition quote_from_bytes (bs : bytes) (safe : str) : str :=
  let safe := filter PyStr.is_ascii safe in
  flat_map (quoter safe) bs.

(** [urllib.parse.quote(string, safe)], with [encoding] and [errors] at
    their defaults, UTF-8 and strict. *)
Definition quote (string : str) (safe : str) : result str :=
  bs <- Codecs.utf8_encode string ;;
  Ok (quote_from_bytes bs safe).

End Urllib.

(** ** The script *)

Import PyStr.

Definition nl : str := [10].

Record web_info : Type := {
  query : str;
  search_url : str;
  note : str
}.

(** [search_fass_web]; [quote] is called with its default [safe='/']. *)
Definition search_fass_web (query : str) : result web_info :=
  encoded_query <- Urllib.quote query (py "/") ;;
  let url := py "https://fass.se/search?query=" ++ encoded_query in
  Ok {| query := query;
        search_url := url;
        note := py "Visit the URL above to see full results on FASS.se" |}.

(** The value under ['otc']: a [bool] or a [str]. *)
Inductive otc_value : Type :=
| OtcBool (b : bool)
| OtcStr (s : str).

Record info : Type := {
  brands : list str;
  use : str;
  dose : str;
  otc : otc_value;
  warnings : str
}.

(** [get_common_medications]: the dict literal, in insertion order, which
    is the order [dict.items()] iterates in. *)
Definition get_common_medications : list (str * info) :=
  [ (py "paracetamol",
     {| brands := [py "Alvedon"; py "Panodil"; py "Pamol"];
        use := py "Pain relief, fever reduction";
        dose := py "Adult: 500-1000mg every 4-6h, max 4g/day";
        otc := OtcBool true;
        warnings := py "Avoid with liver disease, limit alcohol" |});
    (py "ibuprofen",
     {| brands := [py "Ipren"; py "Ibumetin"; py "Brufen"];
        use := py "Pain, inflammation, fever";
        dose := py "Adult: 200-400mg every 4-6h, max 1200mg/day (OTC)";
        otc := OtcBool true;
        warnings := py "Take with food, avoid if stomach ulcers or kidney issues" |});
    (py "omeprazol",
     {| brands := [py "Losec"; py "Omeprazol"];
        use := py "Acid reflux, stomach ulcers, GERD";
        dose := py "Adult: 20mg once daily";
        otc := OtcStr (py "Low dose OTC, higher doses Rx");
        warnings := py "Long-term use may affect B12/magnesium" |});
    (py "sertralin",
     {| brands := [py "Zoloft"; py "Sertralin"];
        use := py "Depression, anxiety, OCD, PTSD";
        dose := py "Adult: Start 50mg/day, may increase";
        otc := OtcBool false;
        warnings := py "Takes 2-4 weeks for effect, do not stop abruptly" |});
    (py "metformin",
     {| brands := [py "Metformin"; py "Glucophage"];
        use := py "Type 2 diabetes";
        dose := py "Adult: Start 500mg 1-2x/day with food";
        otc := OtcBool false;
        warnings := py "Monitor kidney function, stop before contrast imaging" |});
    (py "atorvastatin",
     {| brands := [py "Lipitor"; py "Atorvastatin"];
        use := py "High cholesterol, cardiovascular prevention";
        dose := py "Adult: 10-80mg once daily";
        otc := OtcBool false;
        warnings := py "Report muscle pain, avoid grapefruit" |});
    (py "loratadin",
     {| brands := [py "Clarityn"; py "Loratadin"];
        use := py "Allergies, hay fever, hives";
        dose := py "Adult: 10mg once daily";
        otc := OtcBool true;
        warnings := py "Non-drowsy antihistamine" |});
    (py "cetirizin",
     {| brands := [py "Zyrtec"; py "Cetirizin"];
        use := py "Allergies, hay fever, hives";
        dose := py "Adult: 10mg once daily";
        otc := OtcBool true;
        warnings := py "May cause slight drowsiness" |}) ].

(** The conditional expression of the [**OTC:**] line. *)
Definition otc_text (v : otc_value) : str :=
  match v with
  | OtcBool true => py "Yes (receptfritt)"
  | OtcBool false => py "No (receptbelagt)"
  | OtcStr s => s
  end.

Record process : Type := {
  stdout : str;
  exit_status : N
}.

(** The codec of [sys.stdout], as the set of code points it encodes; the
    stream's [errors] is ['strict'].  UTF-8 encodes every scalar value, an
    ASCII or Latin-1 stream does not. *)
Class StdoutCodec : Type := {
  stdout_encodes : codepoint -> bool
}.

(** A step of the program on standard output: from the text written so
    far to the text written after it, with a value or an exception. *)
Definition io (A : Type) : Type := str -> str * result A.

Definition io_bind {A B : Type} (m : io A) (k : A -> io B) : io B :=
  fun out =>
    match m out with
    | (out', Ok a) => k a out'
    | (out', Raise e) => (out', Raise e)
    end.

Definition io_lift {A : Type} (r : result A) : io A := fun out => (out, r).

(** [sys.stdout.write(s)]: the text is encoded whole before any of it is
    written; the first code point the codec lacks raises. *)
Definition write {codec : StdoutCodec} (s : str) : io unit :=
  fun out =>
    match find (fun c => negb (stdout_encodes c)) s with
    | Some c => (out, Raise (UnicodeEncodeError c))
    | None => (out ++ s, Ok tt)
    end.

(** [print(text)]: the text, then the line break. *)
Definition print {codec : StdoutCodec} (text : str) : io unit :=
  io_bind (write text) (fun _ => write nl).

(** [sys.exit(code)]. *)
Definition sys_exit (code : N) : io unit :=
  fun out => (out, Raise (SystemExit code)).

Section Script.
Context {ucd : UnicodeData}.

(** The [for] loop of [lookup_medication] over [common_meds.items()]:
    the value of [found] when the loop ends. *)
Fixpoint scan_medications (query_lower : str) (items : list (str * info))
  : option (str * info) :=
  match items with
  | [] => None
  | (med_name, info) :: rest =>
      if str_eqb query_lower med_name
         || list_contains (map lower (brands info)) query_lower
      then Some (med_name, info)
      else if str_contains med_name query_lower
      then Some (med_name, info)
      else scan_medications query_lower rest
  end.

(** [found] as [lookup_medication] computes it for [query]. *)
Definition lookup_found (query : str) : option (str * info) :=
  let query_lower := strip (lower query) in
  let common_meds := get_common_medications in
  scan_medications query_lower common_meds.

(** The lines appended under [if found:]. *)
Definition found_lines (found : option (str * info)) : list str :=
  match found with
  | Some (med_name, info) =>
      [ py "### " ++ title med_name ++ py " ("
          ++ join (py ", ") (brands info) ++ py ")" ++ nl;
        py "**Use:** " ++ use info;
        py "**Dosage:** " ++ dose info;
        py "**OTC:** " ++ otc_text (otc info);
        py "**Warnings:** " ++ warnings info;
        [] ]
  | None => []
  end.

(** [lookup_medication]: the header line, the record block when the loop
    found an entry, then the link and the closing lines, joined by line
    breaks.  The exception of [search_fass_web] is not caught. *)
Definition lookup_medication (query : str) : result str :=
  let output := [py "## Swedish Medication Lookup: " ++ query ++ nl] in
  let found := lookup_found query in
  let output := output ++ found_lines found in
  web_info <- search_fass_web query ;;
  let output := output ++
    [ py "### Full Information on FASS";
      [0x1F517] ++ py " " ++ search_url web_info;
      [];
      py "---";
      py "*This is informational only. Always consult healthcare professionals for medical advice.*";
      py "*Sources: FASS.se, L" ++ [0xE4] ++ py "kemedelsverket*" ] in
  Ok (join nl output).

(** The [__main__] block on [sys.argv]. *)
Definition main_block {codec : StdoutCodec} (argv : list str) : io unit :=
  if Nat.ltb (List.length argv) 2 then
    io_bind (print (py "Usage: fass_lookup.py <medication_name>")) (fun _ =>
    io_bind (print (py "Example: fass_lookup.py paracetamol")) (fun _ =>
    io_bind (print (py "Example: fass_lookup.py alvedon")) (fun _ =>
    sys_exit 1)))
  else
    let query := join (py " ") (tl argv) in
    io_bind (io_lift (lookup_medication query)) (fun text =>
    print text).

(** The script run as a process: status 0 when the block ends, the code
    of [sys.exit] when it is called, and status 1, with a traceback on
    standard error, for any other exception, none being caught. *)
Definition main {codec : StdoutCodec} (argv : list str) : process :=
  match main_block argv [] with
  | (out, Ok _) => {| stdout := out; exit_status := 0 |}
  | (out, Raise (SystemExit code)) => {| stdout := out; exit_status := code |}
  | (out, Raise (UnicodeEncodeError _)) => {| stdout := out; exit_status := 1 |}
  end.
End Script.

(** ** The vocabulary of the specification *)

(** [a] occurs in [b] as a contiguous run. *)
Definition is_substring (a b : str) : Prop :=
  exists pre post, b = pre ++ a ++ post.

(** [r] is the first element of [l] that satisfies [P], or nothing when no
    element does. *)
Definition first_match {A : Type} (P : A -> Prop) (l : list A) (r : option A) : Prop :=
  match r with
  | Some e => exists l1 l2, l = l1 ++ e :: l2 /\ P e /\ Forall (fun x => ~ P x) l1
  | None => Forall (fun x => ~ P x) l
  end.

Section MatchRules.
Context {ucd : UnicodeData}.

(** The normalized query: lower-cased, then trimmed. *)
Definition normalize (query : str) : str := strip (lower query).

(** What the final-sigma rule looks at on one side of the sigma: whether
    the nearest code point that is not case-ignorable is cased. *)
Definition cased_context (s : str) : bool :=
  match skip_case_ignorable s with
  | Some c => is_cased c
  | None => false
  end.

(** The three rules of the matcher for one directory entry. *)
Definition rule_matches (nq : str) (e : str * info) : Prop :=
  nq = fst e
  \/ (exists b, In b (brands (snd e)) /\ lower b = nq)
  \/ is_substring nq (fst e).
End MatchRules.

(** ASCII white space, and equality of two strings up to the case of their
    ASCII letters. *)
Definition ascii_space (c : codepoint) : bool := is_ascii c && isspace c.

Definition same_letter (c d : codepoint) : bool :=
  is_ascii c && is_ascii d && (ascii_tolower c =? ascii_tolower d).

Fixpoint case_variant (s t : str) : bool :=
  match s, t with
  | [], [] => true
  | c :: s', d :: t' => same_letter c d && case_variant s' t'
  | _, _ => false
  end.

(** The code points UTF-8 can encode: the Unicode scalar values. *)
Definition scalar_value (c : codepoint) : bool :=
  negb (Codecs.is_surrogate c) && (c <? 0x110000).

Definition encodable (s : str) : bool := forallb scalar_value s.


(** [s] is [t] with the case of some ASCII letters changed: every other
    code point, ASCII or not, is the same in both. *)
Definition recased (c d : codepoint) : bool := (c =? d) || same_letter c d.

Fixpoint recasing (s t : str) : bool :=
  match s, t with
  | [], [] => true
  | c :: s', d :: t' => recased c d && recasing s' t'
  | _, _ => false
  end.

(** Bytes proper: values below 256. *)
Definition octets (bs : bytes) : Prop := Forall (fun b => b < 256) bs.

(** *** Decoding, as a reader of the URL does it *)

Module Decode.

Definition is_continuation (b : N) : bool := (0x80 <=? b) && (b <? 0xC0).

(** UTF-8 decoding (RFC 3629): shortest forms only, no surrogates. *)
Fixpoint utf8_decode (bs : bytes) : option str :=
  match bs with
  | [] => Some []
  | b0 :: t0 =>
      if b0 <? 0x80 then option_map (cons b0) (utf8_decode t0)
      else if b0 <? 0xC0 then None
      else if b0 <? 0xE0 then
        match t0 with
        | b1 :: t1 =>
            let c := (b0 - 0xC0) * 64 + (b1 - 0x80) in
            if is_continuation b1 && (0x80 <=? c)
            then option_map (cons c) (utf8_decode t1) else None
        | _ => None
        end
      else if b0 <? 0xF0 then
        match t0 with
        | b1 :: b2 :: t2 =>
            let c := (b0 - 0xE0) * 4096 + (b1 - 0x80) * 64 + (b2 - 0x80) in
            if is_continuation b1 && is_continuation b2
               && (0x800 <=? c) && negb (Codecs.is_surrogate c)
            then option_map (cons c) (utf8_decode t2) else None
        | _ => None
        end
      else if b0 <? 0xF8 then
        match t0 with
        | b1 :: b2 :: b3 :: t3 =>
            let c := (b0 - 0xF0) * 262144 + (b1 - 0x80) * 4096
                     + (b2 - 0x80) * 64 + (b3 - 0x80) in
            if is_continuation b1 && is_continuation b2 && is_continuation b3
               && (0x10000 <=? c) && (c <? 0x110000)
            then option_map (cons c) (utf8_decode t3) else None
        | _ => None
        end
      else None
  end.

Definition hex_value (c : codepoint) : option N :=
  if (48 <=? c) && (c <=? 57) then Some (c - 48)
  else if (65 <=? c) && (c <=? 70) then Some (c - 55)
  else if (97 <=? c) && (c <=? 102) then Some (c - 87)
  else None.

(** Percent-decoding (RFC 3986, 2.1): [%HH] is the octet [HH], any other
    character of a URL is ASCII and stands for itself. *)
Fixpoint percent_decode (s : str) : option bytes :=
  match s with
  | [] => Some []
  | c :: s1 =>
      let literal :=
        if is_ascii c then option_map (cons c) (percent_decode s1) else None in
      if c =? 37 then
        match s1 with
        | h1 :: h2 :: s3 =>
            match hex_value h1, hex_value h2 with
            | Some a, Some b => option_map (cons (16 * a + b)) (percent_decode s3)
            | _, _ => literal
            end
        | _ => literal
        end
      else literal
  end.

Definition unquote (s : str) : option str :=
  match percent_decode s with
  | Some bs => utf8_decode bs
  | None => None
  end.

Fixpoint after_first (d : codepoint) (s : str) : option str :=
  match s with
  | [] => None
  | c :: s' => if c =? d then Some s' else after_first d s'
  end.

Fixpoint before_first (d : codepoint) (s : str) : str :=
  match s with
  | [] => []
  | c :: s' => if c =? d then [] else c :: before_first d s'
  end.

Fixpoint strip_prefix (p s : str) : option str :=
  match p, s with
  | [], _ => Some s
  | x :: p', c :: s' => if c =? x then strip_prefix p' s' else None
  | _ :: _, [] => None
  end.

(** The query component of a URL (RFC 3986, 3.4): what follows the first
    [?], up to a [#]. *)
Definition url_query (url : str) : option str :=
  option_map (before_first 35) (after_first 63 url).

(** The still encoded value of the parameter [query], when the query
    component starts with it. *)
Definition url_query_value (url : str) : option str :=
  match url_query url with
  | Some qs => option_map (before_first 38) (strip_prefix (py "query=") qs)
  | None => None
  end.

End Decode.

(** *** The shape of a quoted URL *)

Definition is_upper_hex (c : codepoint) : bool :=
  ((48 <=? c) && (c <=? 57)) || ((65 <=? c) && (c <=? 70)).

(** Every [%] starts an escape of two upper-case hexadecimal digits. *)
Fixpoint well_escaped (s : str) : bool :=
  match s with
  | [] => true
  | c :: s1 =>
      if c =? 37 then
        match s1 with
        | h1 :: h2 :: s3 => is_upper_hex h1 && is_upper_hex h2 && well_escaped s3
        | _ => false
        end
      else well_escaped s1
  end.

(** The characters of the template and of a quoted text: letters, digits,
    [_.-~], and [/ : ? = %]. *)
Definition url_char (c : codepoint) : bool :=
  Urllib.always_safe c || existsb (N.eqb c) (py "/:?=%").

(** ** Properties of the string primitives *)

Module PyStrFacts.

Lemma str_eqb_eq (a b : str) : str_eqb a b = true <-> a = b.
Proof.
  revert b; induction a as [|x a IH]; intros [|y b]; simpl; split;
    try discriminate; try reflexivity.
  - intros H. apply andb_true_iff in H as [Hx Hab].
    apply N.eqb_eq in Hx. apply IH in Hab. now subst.
  - intros H. injection H as -> ->.
    apply andb_true_iff. split; [apply N.eqb_refl | now apply IH].
Qed.

Lemma str_eqb_neq (a b : str) : str_eqb a b = false <-> a <> b.
Proof.
  rewrite <- str_eqb_eq. destruct (str_eqb a b); split; congruence.
Qed.

Lemma list_contains_In (l : list str) (x : str) :
  list_contains l x = true <-> In x l.
Proof.
  unfold list_contains. rewrite existsb_exists. split.
  - intros (y & Hy & E). apply str_eqb_eq in E. now subst.
  - intros H. exists x. split; [assumption | now apply str_eqb_eq].
Qed.

Lemma startswith_prefix (s p : str) :
  startswith s p = true <-> exists post, s = p ++ post.
Proof.
  revert s; induction p as [|x p IH]; intros s; simpl.
  - split; [intros _; now exists s | reflexivity].
  - destruct s as [|c s].
    + split; [discriminate | intros (post & H); discriminate].
    + rewrite andb_true_iff, N.eqb_eq, IH. split.
      * intros (-> & post & ->). now exists post.
      * intros (post & H). injection H as -> ->. split; [reflexivity | now exists post].
Qed.

Lemma str_contains_substring (hay needle : str) :
  str_contains hay needle = true <-> is_substring needle hay.
Proof.
  unfold is_substring. induction hay as [|c hay IH]; simpl.
  - rewrite orb_false_r, startswith_prefix. split.
    + intros (post & H). now exists [], post.
    + intros (pre & post & H). symmetry in H.
      apply app_eq_nil in H as [-> H]. now exists post.
  - rewrite orb_true_iff, startswith_prefix, IH. split.
    + intros [(post & H) | (pre & post & H)].
      * now exists [], post.
      * exists (c :: pre), post. simpl. now rewrite H.
    + intros ([|x pre] & post & H).
      * left. now exists post.
      * right. injection H as -> ->. now exists pre, post.
Qed.

Lemma substring_of_empty (b : str) : is_substring [] b.
Proof. now exists [], b. Qed.

Lemma lstrip_all_space (s : str) : forallb isspace s = true -> lstrip s = [].
Proof.
  induction s as [|c s IH]; simpl; [reflexivity|].
  intros H. apply andb_true_iff in H as [-> Hs]. auto.
Qed.

Lemma lstrip_space_app (l s : str) :
  forallb isspace l = true -> lstrip (l ++ s) = lstrip s.
Proof.
  induction l as [|c l IH]; simpl; [reflexivity|].
  intros H. apply andb_true_iff in H as [-> Hl]. auto.
Qed.

Lemma strip_padding (l s r : str) :
  forallb isspace l = true -> forallb isspace r = true ->
  strip (l ++ s ++ r) = strip s.
Proof.
  intros Hl Hr. unfold strip. rewrite lstrip_space_app by assumption.
  clear l Hl. induction s as [|c s IH].
  - simpl. rewrite (lstrip_all_space r) by assumption. reflexivity.
  - simpl. destruct (isspace c) eqn:E; [assumption|].
    unfold rstrip. f_equal. simpl. rewrite rev_app_distr, <- app_assoc.
    apply lstrip_space_app.
    rewrite forallb_forall in *. intros x Hx. apply Hr. now apply in_rev.
Qed.

Lemma lstrip_keeps (c : codepoint) (s : str) :
  isspace c = false -> In c s -> In c (lstrip s).
Proof.
  intros Hc. induction s as [|x s IH]; simpl; [tauto|].
  destruct (isspace x) eqn:E; [|simpl; tauto].
  intros [->|H]; [congruence | auto].
Qed.

Lemma strip_keeps (c : codepoint) (s : str) :
  isspace c = false -> In c s -> In c (strip s).
Proof.
  intros Hc H. unfold strip, rstrip.
  apply (proj1 (in_rev _ _)), lstrip_keeps; [assumption|].
  apply (proj1 (in_rev _ _)). now apply lstrip_keeps.
Qed.

Section Casing.
Context {ucd : UnicodeData}.

Lemma do_lower_ascii (before s : str) :
  forallb is_ascii s = true -> do_lower before s = map ascii_tolower s.
Proof.
  revert before; induction s as [|c s IH]; intros before; simpl; [reflexivity|].
  intros H. apply andb_true_iff in H as [Hc Hs].
  rewrite IH by assumption. unfold lower_ucs4, to_lower_full. rewrite Hc.
  replace (c =? 0x3A3) with false; [reflexivity|].
  symmetry. apply N.eqb_neq. unfold is_ascii in Hc. apply N.ltb_lt in Hc. lia.
Qed.

Lemma lower_ascii (s : str) :
  forallb is_ascii s = true -> lower s = map ascii_tolower s.
Proof. apply do_lower_ascii. Qed.

(** A code point the table maps to itself survives lower-casing. *)
Lemma do_lower_keeps (c : codepoint) (before s : str) :
  c <> 0x3A3 -> to_lower_full c = [c] -> In c s -> In c (do_lower before s).
Proof.
  intros Hs Hc. revert before; induction s as [|x s IH]; intros before; simpl; [tauto|].
  intros [->|H]; apply in_or_app.
  - left. unfold lower_ucs4. apply N.eqb_neq in Hs. rewrite Hs, Hc. now left.
  - right. auto.
Qed.
End Casing.

Lemma case_variant_lower (s t : str) :
  case_variant s t = true ->
  forallb is_ascii s = true /\ map ascii_tolower s = map ascii_tolower t.
Proof.
  revert t; induction s as [|c s IH]; intros [|d t]; simpl; try discriminate.
  - auto.
  - intros H. apply andb_true_iff in H as [Hcd Hst].
    unfold same_letter in Hcd.
    apply andb_true_iff in Hcd as [Hcd E]. apply andb_true_iff in Hcd as [Hc Hd].
    apply N.eqb_eq in E. destruct (IH _ Hst) as [Ha Hm].
    rewrite Hc, Ha, E, Hm. auto.
Qed.

Lemma ascii_space_isspace (l : str) :
  forallb ascii_space l = true ->
  forallb is_ascii l = true /\ forallb isspace l = true.
Proof.
  induction l as [|c l IH]; simpl; [auto|].
  intros H. apply andb_true_iff in H as [Hc Hl]. unfold ascii_space in Hc.
  apply andb_true_iff in Hc as [-> ->]. simpl. auto.
Qed.

Lemma ascii_space_tolower (l : str) :
  forallb ascii_space l = true -> map ascii_tolower l = l.
Proof.
  induction l as [|c l IH]; simpl; [reflexivity|].
  intros H. apply andb_true_iff in H as [Hc Hl]. rewrite IH by assumption.
  f_equal. unfold ascii_space, is_ascii, isspace in Hc. unfold ascii_tolower, ascii_isupper.
  destruct ((65 <=? c) && (c <=? 90)) eqn:E; [|reflexivity].
  apply andb_true_iff in E as [E1 E2]. apply N.leb_le in E1, E2.
  apply andb_true_iff in Hc as [_ Hc].
  repeat (apply orb_true_iff in Hc as [Hc|Hc]);
    repeat match goal with
    | H : _ && _ = true |- _ => apply andb_true_iff in H as [? ?]
    | H : (_ <=? _) = true |- _ => apply N.leb_le in H
    | H : (_ =? _) = true |- _ => apply N.eqb_eq in H
    end; lia.
Qed.

End PyStrFacts.

(** ** The matcher *)

Section Matcher.
Context {ucd : UnicodeData}.
Import PyStrFacts.

(** The two tests of the loop body decide the three rules. *)
Lemma rule_matches_tests (nq med_name : str) (i : info) :
  rule_matches nq (med_name, i) <->
  (str_eqb nq med_name || list_contains (map lower (brands i)) nq = true
   \/ str_contains med_name nq = true).
Proof.
  unfold rule_matches; simpl.
  rewrite orb_true_iff, str_eqb_eq, list_contains_In, in_map_iff,
    str_contains_substring.
  split.
  - intros [H | [(b & Hb & E) | H]]; eauto.
  - intros [[H | (b & E & Hb)] | H]; eauto.
Qed.

Lemma scan_medications_first_match (nq : str) (items : list (str * info)) :
  first_match (rule_matches nq) items (scan_medications nq items).
Proof.
  induction items as [|[med_name i] rest IH]; simpl.
  - constructor.
  - pose proof (rule_matches_tests nq med_name i) as R.
    destruct (str_eqb nq med_name || list_contains (map lower (brands i)) nq) eqn:E1.
    { exists [], rest. split; [reflexivity|]. split; [|constructor]. apply R. now left. }
    destruct (str_contains med_name nq) eqn:E2.
    { exists [], rest. split; [reflexivity|]. split; [|constructor]. apply R. now right. }
    assert (N1 : ~ rule_matches nq (med_name, i)).
    { intros H. apply R in H as [H|H]; discriminate. }
    destruct (scan_medications nq rest) as [e|]; simpl in *.
    + destruct IH as (l1 & l2 & -> & He & Hl1).
      exists ((med_name, i) :: l1), l2. split; [reflexivity|].
      split; [assumption | now constructor].
    + now constructor.
Qed.

Lemma scan_medications_none (nq : str) (items : list (str * info)) :
  (forall e, In e items -> ~ rule_matches nq e) ->
  scan_medications nq items = None.
Proof.
  intros H. pose proof (scan_medications_first_match nq items) as F.
  destruct (scan_medications nq items) as [e|]; [|reflexivity].
  destruct F as (l1 & l2 & -> & He & _). exfalso.
  apply (H e); [|assumption]. apply in_or_app. right. now left.
Qed.

(** Padding with ASCII white space and changing the case of ASCII
    letters leave the normalized query alone. *)
Lemma normalize_variant (l s r t : str) :
  forallb ascii_space l = true -> forallb ascii_space r = true ->
  case_variant s t = true ->
  normalize (l ++ s ++ r) = strip (map ascii_tolower t).
Proof.
  intros Hl Hr Hs.
  destruct (ascii_space_isspace l Hl) as [Al Sl].
  destruct (ascii_space_isspace r Hr) as [Ar Sr].
  destruct (case_variant_lower s t Hs) as [As Es].
  unfold normalize. rewrite lower_ascii.
  - rewrite !map_app, Es.
    rewrite (ascii_space_tolower l Hl), (ascii_space_tolower r Hr).
    now apply strip_padding.
  - rewrite !forallb_app, Al, As, Ar. reflexivity.
Qed.
End Matcher.

Ltac each_entry H :=
  simpl in H;
  repeat (destruct H as [H|H]; [injection H as <- <-|]);
  [..|contradiction].

Ltac each_brand H :=
  simpl in H;
  repeat (destruct H as [H|H]; [subst|]);
  [..|contradiction].

(** C1.  For every query the matcher returns the first entry, in the
    insertion order of the eight built-in entries, that the normalized
    query equals by name, equals by a lower-cased brand, or is a substring
    of by name; it returns nothing exactly when no entry passes one of the
    three rules. *)
Theorem matcher_returns_first_match :
  forall (ucd : UnicodeData) (q : str),
    map fst get_common_medications =
      [py "paracetamol"; py "ibuprofen"; py "omeprazol"; py "sertralin";
       py "metformin"; py "atorvastatin"; py "loratadin"; py "cetirizin"]
    /\ first_match (rule_matches (normalize q)) get_common_medications
         (lookup_found q).
Proof.
  intros ucd q. split; [reflexivity|].
  unfold lookup_found. apply scan_medications_first_match.
Qed.

(** C3.  For each of the eight canonical names, every query that the
    normalization takes to the name gets that name's record, and so does
    every query that is the name with the case of some letters changed and
    ASCII white space around it. *)
Theorem canonical_name_returns_its_record :
  forall (ucd : UnicodeData) (name : str) (rec : info),
    In (name, rec) get_common_medications ->
    (forall q, normalize q = name -> lookup_found q = Some (name, rec))
    /\ (forall l s r,
          forallb ascii_space l = true -> forallb ascii_space r = true ->
          case_variant s name = true ->
          lookup_found (l ++ s ++ r) = Some (name, rec)).
Proof.
  intros ucd name rec H.
  assert (G : forall q, normalize q = name -> lookup_found q = Some (name, rec)).
  { intros q Hq. unfold lookup_found. change (strip (lower q)) with (normalize q).
    rewrite Hq. clear q Hq. each_entry H; reflexivity. }
  split; [exact G|].
  intros l s r Hl Hr Hs. apply G.
  rewrite (normalize_variant l s r name Hl Hr Hs).
  clear G Hl Hr Hs. each_entry H; reflexivity.
Qed.

Lemma canonical_name_returns_its_record_witness :
  exists rec,
    lookup_found (ucd := latin1) (py "  OmePRAZOL" ++ [9; 10]) = Some (py "omeprazol", rec)
    /\ otc rec = OtcStr (py "Low dose OTC, higher doses Rx").
Proof.
  eexists. split.
  - apply (proj2 (canonical_name_returns_its_record latin1 (py "omeprazol") _
                    ltac:(simpl; right; right; left; reflexivity))
             (py "  ") (py "OmePRAZOL") [9; 10]); reflexivity.
  - reflexivity.
Defined.

(** C4.  For every brand of every entry, a query that the normalization
    takes to the lower-cased brand gets the record of the entry that lists
    the brand; in particular every spelling of the brand that differs from
    it in the case of letters only. *)
Theorem brand_name_returns_its_owner :
  forall (ucd : UnicodeData) (name : str) (rec : info) (b : str),
    In (name, rec) get_common_medications ->
    In b (brands rec) ->
    (forall q, normalize q = lower b -> lookup_found q = Some (name, rec))
    /\ (forall s, case_variant s b = true -> lookup_found s = Some (name, rec)).
Proof.
  intros ucd name rec b H Hb.
  assert (G : forall q, normalize q = lower b -> lookup_found q = Some (name, rec)).
  { intros q Hq. unfold lookup_found. change (strip (lower q)) with (normalize q).
    rewrite Hq. clear q Hq. each_entry H; each_brand Hb; reflexivity. }
  split; [exact G|].
  intros s Hs. apply G.
  pose proof (normalize_variant [] s [] b eq_refl eq_refl Hs) as E.
  simpl in E. rewrite app_nil_r in E. rewrite E.
  clear G Hs E. each_entry H; each_brand Hb; reflexivity.
Qed.

Lemma brand_name_returns_its_owner_witness :
  exists rec,
    lookup_found (ucd := latin1) (py "GLUCOphage") = Some (py "metformin", rec)
    /\ brands rec = [py "Metformin"; py "Glucophage"].
Proof.
  eexists. split.
  - apply (proj2 (brand_name_returns_its_owner latin1 (py "metformin") _ (py "Glucophage")
                    ltac:(simpl; do 4 right; left; reflexivity)
                    ltac:(simpl; right; left; reflexivity))
             (py "GLUCOphage")); reflexivity.
  - reflexivity.
Defined.

(** C5.  The query [para] gets the paracetamol record through the
    substring rule, being neither the name nor a brand; the query
    [panodil] gets it through the brand rule, being no substring of the
    name. *)
Theorem para_and_panodil_return_paracetamol :
  forall (ucd : UnicodeData),
  exists rec,
    hd_error get_common_medications = Some (py "paracetamol", rec)
    /\ (lookup_found (py "para") = Some (py "paracetamol", rec)
        /\ is_substring (normalize (py "para")) (py "paracetamol")
        /\ normalize (py "para") <> py "paracetamol"
        /\ ~ In (normalize (py "para")) (map lower (brands rec)))
    /\ (lookup_found (py "panodil") = Some (py "paracetamol", rec)
        /\ In (normalize (py "panodil")) (map lower (brands rec))
        /\ normalize (py "panodil") <> py "paracetamol"
        /\ ~ is_substring (normalize (py "panodil")) (py "paracetamol")).
Proof.
  intros ucd. eexists. split; [reflexivity|]. split.
  - split; [reflexivity|]. split; [|split].
    + apply PyStrFacts.str_contains_substring. reflexivity.
    + apply PyStrFacts.str_eqb_neq. reflexivity.
    + intros H. apply PyStrFacts.list_contains_In in H. discriminate H.
  - split; [reflexivity|]. split; [|split].
    + apply PyStrFacts.list_contains_In. reflexivity.
    + apply PyStrFacts.str_eqb_neq. reflexivity.
    + intros H. apply PyStrFacts.str_contains_substring in H. discriminate H.
Qed.

(** C2.  Brand names are compared whole, never searched: a query whose
    normalization occurs inside a brand name, but inside no canonical
    name, and equals no canonical name and no lower-cased brand, gets
    nothing; and [aspirin] gets nothing. *)
Theorem substring_of_brand_does_not_match :
  forall (ucd : UnicodeData),
    (forall q,
        (exists e b, In e get_common_medications /\ In b (brands (snd e))
                     /\ (is_substring (normalize q) b
                         \/ is_substring (normalize q) (lower b))) ->
        (forall e, In e get_common_medications ->
                   ~ is_substring (normalize q) (fst e)) ->
        (forall e, In e get_common_medications -> normalize q <> fst e) ->
        (forall e b, In e get_common_medications -> In b (brands (snd e)) ->
                     normalize q <> lower b) ->
        lookup_found q = None)
    /\ lookup_found (py "aspirin") = None.
Proof.
  intros ucd. split; [|reflexivity].
  intros q _ Hsub Hname Hbrand. unfold lookup_found.
  change (strip (lower q)) with (normalize q).
  apply scan_medications_none. intros e He [R | [(b & Hb & R) | R]].
  - now apply (Hname e).
  - apply (Hbrand e b He Hb). now symmetry.
  - now apply (Hsub e).
Qed.

Lemma substring_of_brand_does_not_match_witness :
  lookup_found (ucd := latin1) (py " LVedon") = None.
Proof.
  apply (proj1 (substring_of_brand_does_not_match latin1) (py " LVedon")).
  - eexists. exists (py "Alvedon").
    split; [simpl; left; reflexivity|].
    split; [simpl; left; reflexivity|].
    left. now exists (py "A"), [].
  - intros [name rec] He S. apply PyStrFacts.str_contains_substring in S.
    each_entry He; discriminate S.
  - intros [name rec] He E. apply PyStrFacts.str_eqb_eq in E.
    each_entry He; discriminate E.
  - intros [name rec] b He Hb E. apply PyStrFacts.str_eqb_eq in E.
    each_entry He; each_brand Hb; discriminate E.
Defined.

(** C10.  A query that normalizes to the empty string never gets nothing:
    the empty string occurs in every canonical name, so the first entry,
    paracetamol, is returned.  Every query of ASCII white space only
    normalizes to the empty string. *)
Theorem empty_query_returns_paracetamol :
  forall (ucd : UnicodeData),
    (forall q, normalize q = [] ->
       lookup_found q <> None
       /\ lookup_found q = hd_error get_common_medications
       /\ (exists rec, lookup_found q = Some (py "paracetamol", rec))
       /\ (forall e, In e get_common_medications ->
                     is_substring (normalize q) (fst e)))
    /\ (forall q, forallb ascii_space q = true -> normalize q = []).
Proof.
  intros ucd. split.
  - intros q Hq.
    assert (E : lookup_found q = hd_error get_common_medications).
    { unfold lookup_found. change (strip (lower q)) with (normalize q).
      rewrite Hq. reflexivity. }
    rewrite E. split; [discriminate|]. split; [reflexivity|].
    split; [eexists; reflexivity|].
    intros e _. rewrite Hq. apply PyStrFacts.substring_of_empty.
  - intros q Hq.
    pose proof (normalize_variant q [] [] [] Hq eq_refl eq_refl) as E.
    simpl in E. rewrite app_nil_r in E. exact E.
Qed.

Lemma empty_query_returns_paracetamol_witness :
  exists rec,
    lookup_found (ucd := latin1) (py "   ") = Some (py "paracetamol", rec).
Proof.
  apply (proj1 (empty_query_returns_paracetamol latin1) (py "   ")).
  reflexivity.
Defined.

(** ** The codec and the quoting, read back *)

Module CodecFacts.
Import Codecs Decode Urllib.

Ltac Zify.zify_post_hook ::= Z.to_euclidean_division_equations.

Lemma shiftr_6 (c : N) : N.shiftr c 6 = c / 64.
Proof. apply N.shiftr_div_pow2. Qed.

Lemma shiftr_12 (c : N) : N.shiftr c 12 = c / 4096.
Proof. apply N.shiftr_div_pow2. Qed.

Lemma shiftr_18 (c : N) : N.shiftr c 18 = c / 262144.
Proof. apply N.shiftr_div_pow2. Qed.

Lemma land_0x3F (c : N) : N.land c 0x3F = c mod 64.
Proof. change 0x3F with (N.ones 6). now rewrite N.land_ones. Qed.

Ltac split_pos p := destruct p as [p|p|]; try reflexivity.

Lemma lor_0x80 (x : N) : x < 64 -> N.lor 0x80 x = 0x80 + x.
Proof. intros H. destruct x as [|p]; [reflexivity|]. do 6 split_pos p; lia. Qed.

Lemma lor_0xC0 (x : N) : x < 32 -> N.lor 0xC0 x = 0xC0 + x.
Proof. intros H. destruct x as [|p]; [reflexivity|]. do 5 split_pos p; lia. Qed.

Lemma lor_0xE0 (x : N) : x < 16 -> N.lor 0xE0 x = 0xE0 + x.
Proof. intros H. destruct x as [|p]; [reflexivity|]. do 4 split_pos p; lia. Qed.

Lemma lor_0xF0 (x : N) : x < 8 -> N.lor 0xF0 x = 0xF0 + x.
Proof. intros H. destruct x as [|p]; [reflexivity|]. do 3 split_pos p; lia. Qed.

(** Decides the comparisons of a goal from the arithmetic hypotheses. *)
Ltac decide_tests :=
  repeat match goal with
  | |- context [?a <? ?b] => destruct (N.ltb_spec a b); try lia
  | |- context [?a <=? ?b] => destruct (N.leb_spec a b); try lia
  | |- context [?a =? ?b] => destruct (N.eqb_spec a b); try lia
  end.

Lemma utf8_decode_1 (b0 : N) (rest : bytes) :
  b0 < 0x80 ->
  utf8_decode (b0 :: rest) = option_map (cons b0) (utf8_decode rest).
Proof. intros H. cbn [utf8_decode]. decide_tests. reflexivity. Qed.

Lemma utf8_decode_2 (b0 b1 c : N) (rest : bytes) :
  0xC0 <= b0 < 0xE0 -> 0x80 <= b1 < 0xC0 ->
  (b0 - 0xC0) * 64 + (b1 - 0x80) = c -> 0x80 <= c ->
  utf8_decode (b0 :: b1 :: rest) = option_map (cons c) (utf8_decode rest).
Proof.
  intros H0 H1 E Hc. cbn [utf8_decode]. rewrite E.
  unfold is_continuation. decide_tests. reflexivity.
Qed.

Lemma utf8_decode_3 (b0 b1 b2 c : N) (rest : bytes) :
  0xE0 <= b0 < 0xF0 -> 0x80 <= b1 < 0xC0 -> 0x80 <= b2 < 0xC0 ->
  (b0 - 0xE0) * 4096 + (b1 - 0x80) * 64 + (b2 - 0x80) = c ->
  0x800 <= c -> is_surrogate c = false ->
  utf8_decode (b0 :: b1 :: b2 :: rest) = option_map (cons c) (utf8_decode rest).
Proof.
  intros H0 H1 H2 E Hc Hs. cbn [utf8_decode]. rewrite E, Hs.
  unfold is_continuation. decide_tests. reflexivity.
Qed.

Lemma utf8_decode_4 (b0 b1 b2 b3 c : N) (rest : bytes) :
  0xF0 <= b0 < 0xF8 -> 0x80 <= b1 < 0xC0 -> 0x80 <= b2 < 0xC0 ->
  0x80 <= b3 < 0xC0 ->
  (b0 - 0xF0) * 262144 + (b1 - 0x80) * 4096 + (b2 - 0x80) * 64 + (b3 - 0x80) = c ->
  0x10000 <= c < 0x110000 ->
  utf8_decode (b0 :: b1 :: b2 :: b3 :: rest)
  = option_map (cons c) (utf8_decode rest).
Proof.
  intros H0 H1 H2 H3 E Hc. cbn [utf8_decode]. rewrite E.
  unfold is_continuation. decide_tests. reflexivity.
Qed.

(** One scalar value: its encoding is one to four octets that decode to
    it, whatever follows. *)
Lemma utf8_encode_cp_decode (c : codepoint) :
  scalar_value c = true ->
  exists bs, utf8_encode_cp c = Ok bs /\ octets bs
             /\ forall rest, utf8_decode (bs ++ rest)
                             = option_map (cons c) (utf8_decode rest).
Proof.
  unfold scalar_value, utf8_encode_cp. intros H.
  apply andb_true_iff in H as [Hs Hc]. apply negb_true_iff in Hs.
  apply N.ltb_lt in Hc. rewrite Hs.
  rewrite !shiftr_6, !shiftr_12, !shiftr_18, !land_0x3F.
  destruct (N.ltb_spec c 0x80).
  { eexists. split; [reflexivity|]. split; [repeat constructor; lia|].
    intros rest. now apply utf8_decode_1. }
  destruct (N.ltb_spec c 0x800).
  { rewrite lor_0xC0, lor_0x80 by lia.
    eexists. split; [reflexivity|]. split; [repeat constructor; lia|].
    intros rest. apply utf8_decode_2; lia. }
  destruct (N.ltb_spec c 0x10000).
  { rewrite lor_0xE0, !lor_0x80 by lia.
    eexists. split; [reflexivity|]. split; [repeat constructor; lia|].
    intros rest. apply utf8_decode_3; try lia. assumption. }
  destruct (N.ltb_spec c 0x110000); [|lia].
  rewrite lor_0xF0, !lor_0x80 by lia.
  eexists. split; [reflexivity|]. split; [repeat constructor; lia|].
  intros rest. apply utf8_decode_4; lia.
Qed.

Lemma utf8_encode_decode (s : str) :
  encodable s = true ->
  exists bs, utf8_encode s = Ok bs /\ octets bs /\ utf8_decode bs = Some s.
Proof.
  unfold encodable. induction s as [|c s IH]; simpl.
  - intros _. exists []. repeat split. constructor.
  - intros H. apply andb_true_iff in H as [Hc Hs].
    destruct (IH Hs) as (rest & E & O & D).
    destruct (utf8_encode_cp_decode c Hc) as (bs & Ec & Oc & Dc).
    exists (bs ++ rest). rewrite Ec, E. simpl. split; [reflexivity|].
    split; [now apply Forall_app|]. now rewrite Dc, D.
Qed.

(** The first code point that is no scalar value stops the encoder. *)
Lemma utf8_encode_raises (s : str) :
  encodable s = false ->
  exists c, In c s /\ scalar_value c = false
            /\ utf8_encode s = Raise (UnicodeEncodeError c).
Proof.
  unfold encodable. induction s as [|c s IH]; simpl; [discriminate|].
  intros H. destruct (scalar_value c) eqn:Hc.
  - destruct (IH H) as (d & Hd & Sd & E).
    destruct (utf8_encode_cp_decode c Hc) as (bs & Ec & _).
    exists d. rewrite Ec, E. auto.
  - exists c. split; [now left|]. split; [assumption|].
    replace (utf8_encode_cp c) with (@Raise bytes (UnicodeEncodeError c));
      [reflexivity|].
    unfold scalar_value in Hc. unfold utf8_encode_cp.
    apply andb_false_iff in Hc as [Hc|Hc].
    + apply negb_false_iff in Hc. rewrite Hc. unfold is_surrogate in Hc.
      apply andb_true_iff in Hc as [H1 H2]. apply N.leb_le in H1, H2.
      decide_tests. reflexivity.
    + apply N.ltb_ge in Hc. destruct (is_surrogate c); decide_tests; reflexivity.
Qed.

End CodecFacts.

Module QuoteFacts.
Import Codecs Decode Urllib CodecFacts.

Ltac Zify.zify_post_hook ::= Z.to_euclidean_division_equations.

Lemma hex_value_digit (n : N) : n < 16 -> hex_value (hex_digit n) = Some n.
Proof. intros H. destruct n as [|p]; [reflexivity|]. do 4 split_pos p; lia. Qed.

(** What the default [safe='/'] leaves as it is: an ASCII character other
    than the ones a URL gives a meaning to. *)
Lemma kept_byte (b : N) :
  always_safe b || existsb (N.eqb b) (py "/") = true ->
  b < 128 /\ b <> 37 /\ b <> 35 /\ b <> 38.
Proof.
  unfold always_safe, PyStr.ascii_isupper, PyStr.ascii_islower.
  change (existsb (N.eqb b) (py "/")) with ((b =? 47) || false).
  intros H.
  repeat match goal with
  | H : _ || _ = true |- _ => apply orb_true_iff in H as [H|H]
  | H : _ && _ = true |- _ => apply andb_true_iff in H as [? ?]
  | H : (_ <=? _) = true |- _ => apply N.leb_le in H
  | H : (_ =? _) = true |- _ => apply N.eqb_eq in H
  end; try discriminate; lia.
Qed.

Lemma percent_decode_literal (c : codepoint) (s : str) :
  c < 128 -> c <> 37 ->
  percent_decode (c :: s) = option_map (cons c) (percent_decode s).
Proof.
  intros H1 H2. cbn [percent_decode]. unfold PyStr.is_ascii.
  decide_tests. reflexivity.
Qed.

Lemma percent_decode_escape (a b : N) (s : str) :
  a < 16 -> b < 16 ->
  percent_decode (37 :: hex_digit a :: hex_digit b :: s)
  = option_map (cons (16 * a + b)) (percent_decode s).
Proof.
  intros Ha Hb. cbn [percent_decode].
  rewrite (hex_value_digit a Ha), (hex_value_digit b Hb). reflexivity.
Qed.

Lemma percent_decode_quote (bs : bytes) :
  octets bs -> percent_decode (quote_from_bytes bs (py "/")) = Some bs.
Proof.
  unfold quote_from_bytes. change (filter PyStr.is_ascii (py "/")) with (py "/").
  cbv zeta. induction 1 as [|b bs Hb _ IH]; [reflexivity|].
  cbn [flat_map]. unfold quoter at 1.
  destruct (always_safe b || existsb (N.eqb b) (py "/")) eqn:E.
  - destruct (kept_byte b E) as (H1 & H2 & _).
    cbn [app]. rewrite percent_decode_literal, IH by assumption. reflexivity.
  - cbn [app]. rewrite percent_decode_escape, IH by lia.
    cbn [option_map]. do 2 f_equal. lia.
Qed.

Lemma quote_chars (bs : bytes) :
  forallb (fun c => negb (c =? 35) && negb (c =? 38))
          (quote_from_bytes bs (py "/")) = true.
Proof.
  unfold quote_from_bytes. change (filter PyStr.is_ascii (py "/")) with (py "/").
  cbv zeta. induction bs as [|b bs IH]; [reflexivity|].
  cbn [flat_map]. rewrite forallb_app. apply andb_true_iff.
  split; [|exact IH]. unfold quoter.
  destruct (always_safe b || existsb (N.eqb b) (py "/")) eqn:E.
  - destruct (kept_byte b E) as (_ & _ & H3 & H4). cbn [forallb].
    decide_tests; reflexivity.
  - cbn [forallb]. unfold hex_digit. decide_tests; reflexivity.
Qed.

Lemma before_first_absent (d : codepoint) (s : str) :
  forallb (fun c => negb (c =? d)) s = true -> before_first d s = s.
Proof.
  induction s as [|c s IH]; simpl; [reflexivity|].
  intros H. apply andb_true_iff in H as [Hc Hs].
  apply negb_true_iff in Hc. rewrite Hc, IH by assumption. reflexivity.
Qed.

(** The template has one [?]; what follows it is [query=] and the quoted
    text, which holds no [#] and no [&]. *)
Lemma url_query_value_of_template (enc : str) :
  forallb (fun c => negb (c =? 35) && negb (c =? 38)) enc = true ->
  url_query (py "https://fass.se/search?query=" ++ enc) = Some (py "query=" ++ enc)
  /\ url_query_value (py "https://fass.se/search?query=" ++ enc) = Some enc.
Proof.
  intros H.
  assert (H35 : forallb (fun c => negb (c =? 35)) enc = true).
  { rewrite forallb_forall in *. intros c Hc. apply H in Hc.
    now apply andb_true_iff in Hc as [? _]. }
  assert (H38 : forallb (fun c => negb (c =? 38)) enc = true).
  { rewrite forallb_forall in *. intros c Hc. apply H in Hc.
    now apply andb_true_iff in Hc as [_ ?]. }
  assert (Q : url_query (py "https://fass.se/search?query=" ++ enc)
              = Some (py "query=" ++ enc)).
  { unfold url_query. cbn. now rewrite before_first_absent. }
  split; [exact Q|].
  unfold url_query_value. rewrite Q. cbn. now rewrite before_first_absent.
Qed.

End QuoteFacts.

(** ** The reference-link builder, the formatter and the entry point *)

Lemma search_fass_web_encodable (q : str) :
  encodable q = true ->
  exists enc,
    Urllib.quote q (py "/") = Ok enc
    /\ search_fass_web q
       = Ok {| query := q;
               search_url := py "https://fass.se/search?query=" ++ enc;
               note := py "Visit the URL above to see full results on FASS.se" |}
    /\ Decode.url_query_value (py "https://fass.se/search?query=" ++ enc) = Some enc
    /\ Decode.unquote enc = Some q.
Proof.
  intros H. destruct (CodecFacts.utf8_encode_decode q H) as (bs & E & O & D).
  exists (Urllib.quote_from_bytes bs (py "/")).
  unfold search_fass_web, Urllib.quote. rewrite E. cbn [bind].
  split; [reflexivity|]. split; [reflexivity|]. split.
  - apply QuoteFacts.url_query_value_of_template, QuoteFacts.quote_chars.
  - unfold Decode.unquote. now rewrite QuoteFacts.percent_decode_quote.
Qed.

Lemma search_fass_web_raises (q : str) :
  encodable q = false ->
  exists c, In c q /\ scalar_value c = false
            /\ search_fass_web q = Raise (UnicodeEncodeError c).
Proof.
  intros H. destruct (CodecFacts.utf8_encode_raises q H) as (c & Hc & S & E).
  exists c. unfold search_fass_web, Urllib.quote. rewrite E. auto.
Qed.

Lemma join_app (sep : str) (l1 l2 : list str) :
  l1 <> [] -> l2 <> [] ->
  join sep (l1 ++ l2) = join sep l1 ++ sep ++ join sep l2.
Proof.
  intros H1 H2. induction l1 as [|x l1 IH]; [contradiction|].
  destruct l1 as [|y l1].
  - destruct l2; [contradiction | reflexivity].
  - change (join sep ((x :: y :: l1) ++ l2))
      with (x ++ sep ++ join sep ((y :: l1) ++ l2)).
    rewrite IH by discriminate.
    change (join sep (x :: y :: l1)) with (x ++ sep ++ join sep (y :: l1)).
    now rewrite <- !app_assoc.
Qed.

Lemma non_scalar_not_ascii_space (c : codepoint) :
  scalar_value c = false ->
  is_ascii c = false /\ isspace c = false /\ c <> 0x3A3.
Proof.
  unfold scalar_value, Codecs.is_surrogate, is_ascii, isspace. intros H.
  apply andb_false_iff in H as [H|H].
  - apply negb_false_iff, andb_true_iff in H as [H1 H2].
    apply N.leb_le in H1, H2.
    repeat split; [CodecFacts.decide_tests; reflexivity ..|lia].
  - apply N.ltb_ge in H.
    repeat split; [CodecFacts.decide_tests; reflexivity ..|lia].
Qed.

Lemma latin1_fixes_non_scalars (c : codepoint) :
  scalar_value c = false -> to_lower_full (ucd := latin1) c = [c].
Proof.
  intros H. destruct (non_scalar_not_ascii_space c H) as (A & _ & _).
  unfold to_lower_full. rewrite A. cbn [ucd_to_lower latin1].
  unfold latin1_isupper. unfold is_ascii in A. apply N.ltb_ge in A.
  unfold scalar_value, Codecs.is_surrogate in H.
  destruct (N.leb_spec 0xC0 c); destruct (N.leb_spec c 0xDE); try reflexivity.
  exfalso. revert H. CodecFacts.decide_tests; discriminate.
Qed.

Section Output.
Context {ucd : UnicodeData}.

(** The text is the header and the record block, then the fixed tail
    around the URL. *)
Lemma lookup_medication_text (q : str) (w : web_info) :
  search_fass_web q = Ok w ->
  lookup_medication q
  = Ok (join nl ((py "## Swedish Medication Lookup: " ++ q ++ nl)
                 :: found_lines (lookup_found q))
        ++ nl ++ py "### Full Information on FASS" ++ nl
        ++ [0x1F517] ++ py " " ++ search_url w ++ nl ++ nl
        ++ py "---" ++ nl
        ++ py "*This is informational only. Always consult healthcare professionals for medical advice.*"
        ++ nl ++ py "*Sources: FASS.se, L" ++ [0xE4] ++ py "kemedelsverket*").
Proof.
  intros E. unfold lookup_medication. rewrite E. cbn [bind]. f_equal.
  rewrite join_app by (cbn [app]; discriminate).
  reflexivity.
Qed.


Lemma lookup_medication_raises (q : str) :
  encodable q = false ->
  exists c, In c q /\ scalar_value c = false
            /\ lookup_medication q = Raise (UnicodeEncodeError c).
Proof.
  intros H. destruct (search_fass_web_raises q H) as (c & Hc & S & E).
  exists c. unfold lookup_medication. rewrite E. auto.
Qed.

Lemma directory_is_ascii (name : str) (rec : info) :
  In (name, rec) get_common_medications ->
  forallb is_ascii name = true
  /\ forall b, In b (brands rec) -> forallb is_ascii (lower b) = true.
Proof.
  intros H. each_entry H; (split; [reflexivity|]); intros b Hb;
    each_brand Hb; reflexivity.
Qed.

(** When the tables leave the code points that are not characters alone,
    as the Unicode tables do, a query that matches an entry is one that
    UTF-8 can encode: what remains of it after normalization is ASCII. *)
Lemma found_query_encodable (q : str) (e : str * info) :
  (forall c, scalar_value c = false -> to_lower_full c = [c]) ->
  lookup_found q = Some e -> encodable q = true.
Proof.
  intros Hucd Hf. unfold encodable. apply forallb_forall. intros c Hc.
  destruct (scalar_value c) eqn:S; [reflexivity|exfalso].
  destruct (non_scalar_not_ascii_space c S) as (A & W & G).
  assert (Hn : In c (normalize q)).
  { apply PyStrFacts.strip_keeps; [assumption|].
    apply PyStrFacts.do_lower_keeps; auto. }
  pose proof (scan_medications_first_match (normalize q) get_common_medications) as F.
  unfold lookup_found in Hf. change (strip (lower q)) with (normalize q) in Hf.
  rewrite Hf in F. destruct F as (l1 & l2 & D & R & _).
  destruct e as [name rec].
  assert (He : In (name, rec) get_common_medications).
  { rewrite D. apply in_or_app. right. now left. }
  destruct (directory_is_ascii name rec He) as [An Ab].
  assert (Aq : forallb is_ascii (normalize q) = true).
  { destruct R as [R | [(b & Hb & R) | (pre & post & R)]]; simpl in R.
    - now rewrite R.
    - rewrite <- R. now apply Ab.
    - rewrite R, !forallb_app in An.
      apply andb_true_iff in An as [_ An].
      now apply andb_true_iff in An as [An _]. }
  rewrite forallb_forall in Aq. apply Aq in Hn. congruence.
Qed.

(** The labelled lines of a matched record, as they stand in the text. *)
Lemma record_lines_in_text (q name : str) (rec : info) :
  encodable q = true ->
  lookup_found q = Some (name, rec) ->
  exists text pre post,
    lookup_medication q = Ok text
    /\ text = pre ++ nl ++ py "**Dosage:** " ++ dose rec
              ++ nl ++ py "**OTC:** " ++ otc_text (otc rec)
              ++ nl ++ py "**Warnings:** " ++ warnings rec ++ nl ++ post.
Proof.
  intros He Hf.
  destruct (search_fass_web_encodable q He) as (enc & _ & E & _).
  eexists.
  exists ((py "## Swedish Medication Lookup: " ++ q ++ nl) ++ nl
          ++ (py "### " ++ title name ++ py " ("
              ++ join (py ", ") (brands rec) ++ py ")" ++ nl)
          ++ nl ++ py "**Use:** " ++ use rec).
  eexists. split.
  - rewrite (lookup_medication_text q _ E), Hf. reflexivity.
  - cbn [found_lines join]. rewrite <- !app_assoc. reflexivity.
Qed.
End Output.

(** C6, amended.  For every query that UTF-8 can encode (no lone
    surrogate), the builder returns the template
    [https://fass.se/search?query=] followed by the percent-encoding of the
    raw query, and the value of the [query] parameter of that URL
    percent-decodes to exactly the query.  For [alvedon 500mg] the URL is
    [https://fass.se/search?query=alvedon%20500mg].  For any other query
    the encoder raises on a code point of the query and no URL is built. *)
Theorem reference_url_decodes_to_query :
  (forall q, encodable q = true ->
     exists w enc,
       search_fass_web q = Ok w
       /\ query w = q
       /\ search_url w = py "https://fass.se/search?query=" ++ enc
       /\ Decode.url_query (search_url w) = Some (py "query=" ++ enc)
       /\ Decode.url_query_value (search_url w) = Some enc
       /\ Decode.unquote enc = Some q)
  /\ (exists w,
        search_fass_web (py "alvedon 500mg") = Ok w
        /\ search_url w = py "https://fass.se/search?query=alvedon%20500mg"
        /\ Decode.url_query_value (search_url w) = Some (py "alvedon%20500mg")
        /\ Decode.unquote (py "alvedon%20500mg") = Some (py "alvedon 500mg"))
  /\ (forall q, encodable q = false ->
        exists c, In c q /\ scalar_value c = false
                  /\ search_fass_web q = Raise (UnicodeEncodeError c)).
Proof.
  split; [|split].
  - intros q H. destruct (search_fass_web_encodable q H) as (enc & Q & E & V & D).
    eexists. exists enc. split; [exact E|]. cbn [query search_url].
    repeat split; try assumption.
    apply QuoteFacts.url_query_value_of_template.
    unfold Urllib.quote in Q. destruct (Codecs.utf8_encode q); [|discriminate].
    injection Q as <-. apply QuoteFacts.quote_chars.
  - eexists. repeat split.
  - apply search_fass_web_raises.
Qed.

Lemma reference_url_decodes_to_query_witness :
  (exists w enc,
     search_fass_web (py "L" ++ [0xE4] ++ py "kemedel 500mg/dag") = Ok w
     /\ query w = py "L" ++ [0xE4] ++ py "kemedel 500mg/dag"
     /\ search_url w = py "https://fass.se/search?query=" ++ enc
     /\ Decode.url_query (search_url w) = Some (py "query=" ++ enc)
     /\ Decode.url_query_value (search_url w) = Some enc
     /\ Decode.unquote enc = Some (py "L" ++ [0xE4] ++ py "kemedel 500mg/dag"))
  /\ (exists c, In c [0x61; 0xD800] /\ scalar_value c = false
                /\ search_fass_web [0x61; 0xD800] = Raise (UnicodeEncodeError c)).
Proof.
  split.
  - apply (proj1 reference_url_decodes_to_query
             (py "L" ++ [0xE4] ++ py "kemedel 500mg/dag")).
    reflexivity.
  - apply (proj2 (proj2 reference_url_decodes_to_query) [0x61; 0xD800]).
    reflexivity.
Defined.

(** C6 as stated fails for a query that holds a lone surrogate, as
    [sys.argv] does for a command-line byte that is not UTF-8: the strict
    encoder raises and no URL is built. *)
Lemma reference_url_lone_surrogate :
  search_fass_web [0xDCFF] = Raise (UnicodeEncodeError 0xDCFF)
  /\ ~ (exists w, search_fass_web [0xDCFF] = Ok w).
Proof.
  split; [reflexivity|]. intros (w & H). discriminate H.
Qed.

(** C8, amended.  For every query that UTF-8 can encode, with or without
    a directory match, the text ends with the [Full Information] header,
    the link line that holds the reference URL, the line saying that the
    text is informational only and that healthcare professionals are to be
    consulted, and the sources line; without a match nothing but the
    header line of the lookup precedes them.  For any other query the
    lookup raises and there is no text. *)
Theorem output_ends_with_reference_and_disclaimer :
  forall (ucd : UnicodeData),
    (forall q,
       encodable q = true ->
       exists w body,
         search_fass_web q = Ok w
         /\ lookup_medication q
            = Ok (body ++ py "### Full Information on FASS" ++ nl
                  ++ [0x1F517] ++ py " " ++ search_url w ++ nl ++ nl
                  ++ py "---" ++ nl
                  ++ py "*This is informational only. Always consult healthcare professionals for medical advice.*"
                  ++ nl ++ py "*Sources: FASS.se, L" ++ [0xE4] ++ py "kemedelsverket*")
         /\ (lookup_found q = None ->
             body = py "## Swedish Medication Lookup: " ++ q ++ nl ++ nl))
    /\ (forall q, encodable q = false ->
          exists c, In c q /\ scalar_value c = false
                    /\ lookup_medication q = Raise (UnicodeEncodeError c)).
Proof.
  intros ucd. split; [|apply lookup_medication_raises].
  intros q He.
  destruct (search_fass_web_encodable q He) as (enc & _ & E & _).
  eexists.
  exists (join nl ((py "## Swedish Medication Lookup: " ++ q ++ nl)
                   :: found_lines (lookup_found q)) ++ nl).
  split; [exact E|]. split.
  - rewrite (lookup_medication_text q _ E). now rewrite <- app_assoc.
  - intros ->. cbn [found_lines join]. now rewrite <- !app_assoc.
Qed.

Lemma output_ends_with_reference_and_disclaimer_witness :
  (exists w body,
     search_fass_web (py "aspirin") = Ok w
     /\ lookup_medication (ucd := latin1) (py "aspirin")
        = Ok (body ++ py "### Full Information on FASS" ++ nl
              ++ [0x1F517] ++ py " " ++ search_url w ++ nl ++ nl
              ++ py "---" ++ nl
              ++ py "*This is informational only. Always consult healthcare professionals for medical advice.*"
              ++ nl ++ py "*Sources: FASS.se, L" ++ [0xE4] ++ py "kemedelsverket*")
     /\ (lookup_found (ucd := latin1) (py "aspirin") = None ->
         body = py "## Swedish Medication Lookup: " ++ py "aspirin" ++ nl ++ nl))
  /\ (exists c, In c [0xDC80; 0x20] /\ scalar_value c = false
                /\ lookup_medication (ucd := latin1) [0xDC80; 0x20]
                   = Raise (UnicodeEncodeError c)).
Proof.
  split.
  - apply (proj1 (output_ends_with_reference_and_disclaimer latin1) (py "aspirin")).
    reflexivity.
  - apply (proj2 (output_ends_with_reference_and_disclaimer latin1) [0xDC80; 0x20]).
    reflexivity.
Defined.

(** C8 as stated fails for a query with a lone surrogate: the URL cannot
    be built and [lookup_medication] raises instead of returning text. *)
Lemma output_lone_surrogate :
  lookup_medication (ucd := latin1) [0xDCFF] = Raise (UnicodeEncodeError 0xDCFF)
  /\ ~ (exists text, lookup_medication (ucd := latin1) [0xDCFF] = Ok text).
Proof.
  split; [reflexivity|]. intros (text & H). discriminate H.
Qed.

(** C9.  When a record matches, the line between the dosage line and the
    warnings line reads [**OTC:** Yes (receptfritt)] for [True],
    [**OTC:** No (receptbelagt)] for [False], and [**OTC:** ] followed by
    the string itself otherwise, as for omeprazol.  The tables are taken
    to leave the code points that are not characters alone. *)
Theorem otc_status_line :
  forall (ucd : UnicodeData),
    (forall c, scalar_value c = false -> to_lower_full c = [c]) ->
    (forall q name rec,
       lookup_found q = Some (name, rec) ->
       exists text pre post line,
         lookup_medication q = Ok text
         /\ text = pre ++ nl ++ py "**Dosage:** " ++ dose rec
                   ++ nl ++ py "**OTC:** " ++ line
                   ++ nl ++ py "**Warnings:** " ++ warnings rec ++ nl ++ post
         /\ (otc rec = OtcBool true -> line = py "Yes (receptfritt)")
         /\ (otc rec = OtcBool false -> line = py "No (receptbelagt)")
         /\ (forall s, otc rec = OtcStr s -> line = s))
    /\ (exists text pre post,
          lookup_medication (py "omeprazol") = Ok text
          /\ text = pre ++ nl ++ py "**OTC:** Low dose OTC, higher doses Rx"
                    ++ nl ++ post).
Proof.
  intros ucd Hucd. split.
  - intros q name rec Hf.
    pose proof (found_query_encodable q _ Hucd Hf) as He.
    destruct (record_lines_in_text q name rec He Hf) as (text & pre & post & E & T).
    exists text, pre, post, (otc_text (otc rec)).
    split; [exact E|]. split; [exact T|].
    repeat split; intros; destruct (otc rec) as [[|]|]; simpl; congruence.
  - edestruct (record_lines_in_text (py "omeprazol") (py "omeprazol") _
                 eq_refl eq_refl)
      as (text & pre & post & E & T).
    exists text, (pre ++ nl ++ py "**Dosage:** Adult: 20mg once daily"),
      (py "**Warnings:** Long-term use may affect B12/magnesium" ++ nl ++ post).
    split; [exact E|]. rewrite T. rewrite <- !app_assoc. reflexivity.
Qed.

Lemma otc_status_line_witness :
  exists text pre post,
    lookup_medication (ucd := latin1) (py " Zoloft ") = Ok text
    /\ text = pre ++ nl ++ py "**Dosage:** Adult: Start 50mg/day, may increase"
              ++ nl ++ py "**OTC:** No (receptbelagt)"
              ++ nl ++ py "**Warnings:** Takes 2-4 weeks for effect, do not stop abruptly"
              ++ nl ++ post.
Proof.
  destruct (proj1 (otc_status_line latin1 latin1_fixes_non_scalars)
              (py " Zoloft ") (py "sertralin") _ eq_refl)
    as (text & pre & post & line & E & T & _ & F & _).
  exists text, pre, post. split; [exact E|].
  rewrite T, (F eq_refl). reflexivity.
Defined.

(** ** Further properties of the matcher *)

Section MatcherMore.
Context {ucd : UnicodeData}.
Import PyStrFacts.

Lemma directory_lowercase (name : str) (rec : info) :
  In (name, rec) get_common_medications ->
  forallb ascii_islower name = true
  /\ (List.length name <= 12)%nat
  /\ forall b, In b (brands rec) ->
       forallb ascii_islower (lower b) = true
       /\ (List.length (lower b) <= 12)%nat.
Proof.
  intros H. each_entry H; (split; [reflexivity|]); (split; [simpl; lia|]);
    intros b Hb; each_brand Hb; (split; [reflexivity | simpl; lia]).
Qed.

Lemma found_in_directory (q : str) (e : str * info) :
  lookup_found q = Some e ->
  In e get_common_medications /\ rule_matches (normalize q) e.
Proof.
  intros Hf.
  pose proof (scan_medications_first_match (normalize q) get_common_medications) as F.
  unfold lookup_found in Hf. change (strip (lower q)) with (normalize q) in Hf.
  rewrite Hf in F. destruct F as (l1 & l2 & D & R & _).
  split; [|exact R]. rewrite D. apply in_or_app. right. now left.
Qed.

Lemma found_query_lowercase (q : str) (e : str * info) :
  lookup_found q = Some e ->
  forallb ascii_islower (normalize q) = true
  /\ (List.length (normalize q) <= 12)%nat.
Proof.
  intros Hf. destruct (found_in_directory q e Hf) as [He R].
  destruct e as [name rec].
  destruct (directory_lowercase name rec He) as (Ln & Nn & Hb).
  destruct R as [R | [(b & Hin & R) | (pre & post & R)]]; simpl in R.
  - rewrite R. auto.
  - rewrite <- R. now apply Hb.
  - rewrite R in Ln, Nn. rewrite !forallb_app in Ln. rewrite !length_app in Nn.
    apply andb_true_iff in Ln as [_ Ln]. apply andb_true_iff in Ln as [Ln _].
    split; [assumption | lia].
Qed.
End MatcherMore.

(** X1.  The loop over any directory composes over concatenation: the scan
    of [l1 ++ l2] is the hit in [l1] when there is one, and the scan of
    [l2] otherwise; entries added at the end never change a hit. *)
Theorem scan_medications_app :
  forall (ucd : UnicodeData) (nq : str) (l1 l2 : list (str * info)),
    scan_medications nq (l1 ++ l2)
    = match scan_medications nq l1 with
      | Some e => Some e
      | None => scan_medications nq l2
      end.
Proof.
  intros ucd nq l1 l2.
  induction l1 as [|[med_name i] l1 IH]; simpl; [reflexivity|].
  destruct (str_eqb nq med_name || list_contains (map lower (brands i)) nq);
    [reflexivity|].
  destruct (str_contains med_name nq); [reflexivity | exact IH].
Qed.

(** X2.  A query that matches is, once normalized, made of lower-case
    ASCII letters only and at most twelve of them; so a query whose
    normalization holds any other character (a digit, an inner space, a
    non-ASCII letter) gets nothing, as [alvedon 500mg] does. *)
Theorem matching_query_is_lowercase_word :
  forall (ucd : UnicodeData) (q : str),
    (forall e, lookup_found q = Some e ->
       In e get_common_medications
       /\ forallb ascii_islower (normalize q) = true
       /\ (List.length (normalize q) <= 12)%nat)
    /\ (existsb (fun c => negb (ascii_islower c)) (normalize q) = true ->
        lookup_found q = None).
Proof.
  intros ucd q. split.
  - intros e Hf. split; [apply (found_in_directory q e Hf)|].
    apply (found_query_lowercase q e Hf).
  - intros H. destruct (lookup_found q) as [e|] eqn:Hf; [exfalso | reflexivity].
    destruct (found_query_lowercase q e Hf) as [L _].
    apply existsb_exists in H as (c & Hc & Nc).
    rewrite forallb_forall in L. rewrite (L c Hc) in Nc. discriminate.
Qed.

Lemma matching_query_is_lowercase_word_witness :
  (exists rec,
     lookup_found (ucd := latin1) (py " PARA") = Some (py "paracetamol", rec)
     /\ forallb ascii_islower (normalize (ucd := latin1) (py " PARA")) = true)
  /\ lookup_found (ucd := latin1) (py "alvedon 500mg") = None.
Proof.
  split.
  - eexists. split; [reflexivity|].
    apply (proj1 (matching_query_is_lowercase_word latin1 (py " PARA")) _ eq_refl).
  - apply (proj2 (matching_query_is_lowercase_word latin1 (py "alvedon 500mg"))).
    reflexivity.
Defined.

(** Turns the tests among the hypotheses into arithmetic. *)
Ltac reflect_tests :=
  repeat match goal with
  | H : _ && _ = true |- _ => apply andb_true_iff in H as [? ?]
  | H : _ || _ = false |- _ => apply orb_false_iff in H as [? ?]
  | H : _ && _ = false |- _ => apply andb_false_iff in H as [H|H]
  | H : _ || _ = true |- _ => apply orb_true_iff in H as [H|H]
  | H : (_ <=? _) = true |- _ => apply N.leb_le in H
  | H : (_ <=? _) = false |- _ => apply N.leb_gt in H
  | H : (_ <? _) = true |- _ => apply N.ltb_lt in H
  | H : (_ <? _) = false |- _ => apply N.ltb_ge in H
  | H : (_ =? _) = true |- _ => apply N.eqb_eq in H
  | H : (_ =? _) = false |- _ => apply N.eqb_neq in H
  end.

Section Recasing.
Context {ucd : UnicodeData}.

Lemma recased_cases (c d : codepoint) :
  recased c d = true ->
  c = d
  \/ (c < 128 /\ d < 128
      /\ ((65 <= c <= 90 /\ d = c + 32) \/ (65 <= d <= 90 /\ c = d + 32))).
Proof.
  unfold recased, same_letter, is_ascii, ascii_tolower, ascii_isupper.
  destruct ((65 <=? c) && (c <=? 90)) eqn:Ec;
    destruct ((65 <=? d) && (d <=? 90)) eqn:Ed; intros H;
    cbv beta iota in H; reflect_tests; lia.
Qed.

Lemma recased_tables (c d : codepoint) :
  recased c d = true ->
  to_lower_full c = to_lower_full d
  /\ (c =? 0x3A3) = (d =? 0x3A3)
  /\ is_cased c = is_cased d
  /\ is_case_ignorable c = is_case_ignorable d.
Proof.
  intros H. destruct (recased_cases c d H) as [-> | (Hc & Hd & L)]; [auto|].
  unfold to_lower_full, is_cased, is_case_ignorable, is_ascii, ascii_tolower,
    ascii_isupper, ascii_islower.
  repeat split; CodecFacts.decide_tests; try reflexivity;
    cbv beta iota delta [andb]; f_equal; lia.
Qed.

Lemma handle_capital_sigma_context (before after : str) :
  handle_capital_sigma before after
  = if cased_context before && negb (cased_context after) then 0x3C2 else 0x3C3.
Proof.
  unfold handle_capital_sigma, cased_context.
  destruct (skip_case_ignorable before) as [c|];
    destruct (skip_case_ignorable after) as [d|]; reflexivity.
Qed.

Lemma cased_context_cons (c : codepoint) (s : str) :
  cased_context (c :: s)
  = if is_case_ignorable c then cased_context s else is_cased c.
Proof.
  unfold cased_context. simpl. now destruct (is_case_ignorable c).
Qed.

Lemma cased_context_recasing (s t : str) :
  recasing s t = true -> cased_context s = cased_context t.
Proof.
  revert t. induction s as [|c s IH]; intros [|d t]; simpl; try discriminate;
    [reflexivity|].
  intros H. apply andb_true_iff in H as [Hcd Hst].
  destruct (recased_tables c d Hcd) as (_ & _ & C & I).
  now rewrite !cased_context_cons, C, I, (IH t Hst).
Qed.

Lemma ascii_space_uncased (w : codepoint) :
  ascii_space w = true -> is_case_ignorable w = false /\ is_cased w = false.
Proof.
  unfold ascii_space, isspace, is_case_ignorable, is_cased,
    ascii_isupper, ascii_islower, is_ascii.
  intros H. reflect_tests; split; CodecFacts.decide_tests; try reflexivity; lia.
Qed.

Lemma cased_context_space (r : str) :
  forallb ascii_space r = true -> cased_context r = false.
Proof.
  destruct r as [|w r]; [reflexivity|]. simpl. intros H.
  apply andb_true_iff in H as [Hw _].
  destruct (ascii_space_uncased w Hw) as [I C].
  now rewrite cased_context_cons, I, C.
Qed.

Lemma cased_context_app_space (s r : str) :
  forallb ascii_space r = true -> cased_context (s ++ r) = cased_context s.
Proof.
  intros Hr. induction s as [|c s IH]; simpl.
  - now apply cased_context_space.
  - now rewrite !cased_context_cons, IH.
Qed.

(** Lower-casing sees neither the case of the ASCII letters nor the ASCII
    white space that follows the text, in any context that the
    final-sigma rule cannot tell apart. *)
Lemma do_lower_recasing (s t before1 before2 r : str) :
  recasing s t = true ->
  cased_context before1 = cased_context before2 ->
  forallb ascii_space r = true ->
  do_lower before1 (s ++ r) = do_lower before2 t ++ r.
Proof.
  intros Hst Hb Hr. revert t before1 before2 Hst Hb.
  induction s as [|c s IH]; intros [|d t] before1 before2 Hst Hb;
    simpl in Hst; try discriminate.
  - simpl. destruct (PyStrFacts.ascii_space_isspace r Hr) as [A _].
    now rewrite (PyStrFacts.do_lower_ascii before1 r A),
      (PyStrFacts.ascii_space_tolower r Hr).
  - apply andb_true_iff in Hst as [Hcd Hst].
    destruct (recased_tables c d Hcd) as (L & S & C & I).
    simpl. rewrite <- app_assoc. f_equal.
    + unfold lower_ucs4. rewrite S, L, !handle_capital_sigma_context.
      now rewrite (cased_context_app_space s r Hr),
        (cased_context_recasing s t Hst), Hb.
    + apply IH; [assumption|]. now rewrite !cased_context_cons, C, I, Hb.
Qed.

Lemma do_lower_ascii_app (l x before : str) :
  forallb is_ascii l = true ->
  do_lower before (l ++ x) = map ascii_tolower l ++ do_lower (rev l ++ before) x.
Proof.
  revert before. induction l as [|c l IH]; intros before; simpl; [reflexivity|].
  intros H. apply andb_true_iff in H as [Hc Hl].
  rewrite (IH (c :: before) Hl), <- app_assoc. simpl.
  unfold lower_ucs4, to_lower_full. rewrite Hc.
  replace (c =? 0x3A3) with false; [reflexivity|].
  symmetry. apply N.eqb_neq. unfold is_ascii in Hc. apply N.ltb_lt in Hc. lia.
Qed.

Lemma normalize_recasing (l s r t : str) :
  forallb ascii_space l = true -> forallb ascii_space r = true ->
  recasing s t = true ->
  normalize (l ++ s ++ r) = normalize t.
Proof.
  intros Hl Hr Hst.
  destruct (PyStrFacts.ascii_space_isspace l Hl) as [Al Sl].
  destruct (PyStrFacts.ascii_space_isspace r Hr) as [_ Sr].
  unfold normalize, lower.
  rewrite (do_lower_ascii_app l (s ++ r) [] Al), (PyStrFacts.ascii_space_tolower l Hl).
  rewrite (do_lower_recasing s t (rev l ++ []) [] r Hst); [|
    |assumption].
  - now apply PyStrFacts.strip_padding.
  - rewrite app_nil_r. apply cased_context_space.
    apply forallb_forall. intros c Hc. apply in_rev in Hc.
    rewrite forallb_forall in Hl. now apply Hl.
Qed.
End Recasing.

(** X3.  For every query, with or without non-ASCII code points, changing
    the case of its ASCII letters and adding ASCII white space around it
    do not change what the matcher returns. *)
Theorem lookup_ignores_case_and_padding :
  forall (ucd : UnicodeData) (l s r t : str),
    forallb ascii_space l = true -> forallb ascii_space r = true ->
    recasing s t = true ->
    lookup_found (l ++ s ++ r) = lookup_found t.
Proof.
  intros ucd l s r t Hl Hr Hs. unfold lookup_found.
  change (strip (lower (l ++ s ++ r))) with (normalize (l ++ s ++ r)).
  change (strip (lower t)) with (normalize t).
  now rewrite (normalize_recasing l s r t Hl Hr Hs).
Qed.

Lemma lookup_ignores_case_and_padding_witness :
  lookup_found (ucd := latin1) (py "  " ++ ([0xA0] ++ py "sERTra") ++ py " ")
  = lookup_found (ucd := latin1) ([0xA0] ++ py "sertra")
  /\ (exists rec, lookup_found (ucd := latin1) ([0xA0] ++ py "sertra")
                  = Some (py "sertralin", rec))
  /\ lookup_found (ucd := latin1) (py " " ++ (py "L" ++ [0xE4] ++ py "KE") ++ [])
     = lookup_found (ucd := latin1) (py "l" ++ [0xE4] ++ py "ke").
Proof.
  split; [|split].
  - apply (lookup_ignores_case_and_padding latin1 (py "  ")
             ([0xA0] ++ py "sERTra") (py " ") ([0xA0] ++ py "sertra"));
      reflexivity.
  - eexists. reflexivity.
  - apply (lookup_ignores_case_and_padding latin1 (py " ")
             (py "L" ++ [0xE4] ++ py "KE") [] (py "l" ++ [0xE4] ++ py "ke"));
      reflexivity.
Defined.

(** ** Further properties of the normalization *)

Module StripFacts.

Lemma lstrip_head (s : str) :
  lstrip s = [] \/ exists c s', lstrip s = c :: s' /\ isspace c = false.
Proof.
  induction s as [|x s IH]; simpl; [now left|].
  destruct (isspace x) eqn:E; [exact IH|]. right. now exists x, s.
Qed.

Lemma lstrip_fixed (s : str) :
  (forall c, hd_error s = Some c -> isspace c = false) -> lstrip s = s.
Proof.
  destruct s as [|x s]; simpl; [reflexivity|].
  intros H. now rewrite (H x eq_refl).
Qed.

Lemma lstrip_idem (s : str) : lstrip (lstrip s) = lstrip s.
Proof.
  apply lstrip_fixed. intros c Hc.
  destruct (lstrip_head s) as [E | (x & s' & E & Hx)]; rewrite E in Hc; simpl in Hc.
  - discriminate.
  - now injection Hc as <-.
Qed.

Lemma lstrip_snoc (u : str) (c : codepoint) :
  isspace c = false -> lstrip (u ++ [c]) = lstrip u ++ [c].
Proof.
  intros Hc. induction u as [|x u IH]; simpl.
  - now rewrite Hc.
  - destruct (isspace x); [exact IH | reflexivity].
Qed.

Lemma rstrip_cons (c : codepoint) (s : str) :
  isspace c = false -> rstrip (c :: s) = c :: rstrip s.
Proof.
  intros Hc. unfold rstrip. simpl. rewrite lstrip_snoc by assumption.
  now rewrite rev_app_distr.
Qed.

Lemma rstrip_idem (s : str) : rstrip (rstrip s) = rstrip s.
Proof. unfold rstrip. now rewrite rev_involutive, lstrip_idem. Qed.

Lemma strip_head (s : str) (c : codepoint) :
  hd_error (strip s) = Some c -> isspace c = false.
Proof.
  unfold strip. destruct (lstrip_head s) as [E | (x & s' & E & Hx)]; rewrite E.
  - discriminate.
  - rewrite rstrip_cons by assumption. simpl. now intros [= <-].
Qed.

Lemma strip_last (s : str) (c : codepoint) :
  hd_error (rev (strip s)) = Some c -> isspace c = false.
Proof.
  unfold strip, rstrip. rewrite rev_involutive.
  destruct (lstrip_head (rev (lstrip s))) as [E | (x & s' & E & Hx)]; rewrite E.
  - discriminate.
  - simpl. now intros [= <-].
Qed.

Lemma strip_idem (s : str) : strip (strip s) = strip s.
Proof.
  unfold strip at 1. rewrite (lstrip_fixed (strip s)) by apply strip_head.
  unfold strip. apply rstrip_idem.
Qed.

Lemma lstrip_incl (s : str) (c : codepoint) : In c (lstrip s) -> In c s.
Proof.
  induction s as [|x s IH]; simpl; [tauto|].
  destruct (isspace x); [auto | simpl; tauto].
Qed.

Lemma strip_incl (s : str) (c : codepoint) : In c (strip s) -> In c s.
Proof.
  unfold strip, rstrip. intros H.
  apply in_rev, lstrip_incl in H. apply in_rev in H. now apply lstrip_incl.
Qed.

Lemma ascii_tolower_idem (c : codepoint) :
  ascii_tolower (ascii_tolower c) = ascii_tolower c.
Proof.
  unfold ascii_tolower, ascii_isupper.
  destruct ((65 <=? c) && (c <=? 90)) eqn:E; [|now rewrite E].
  apply andb_true_iff in E as [E1 E2]. apply N.leb_le in E1, E2.
  CodecFacts.decide_tests; reflexivity.
Qed.

Lemma ascii_tolower_ascii (c : codepoint) :
  is_ascii c = true -> is_ascii (ascii_tolower c) = true.
Proof.
  unfold is_ascii, ascii_tolower, ascii_isupper. intros H.
  destruct ((65 <=? c) && (c <=? 90)) eqn:E; [|assumption].
  apply andb_true_iff in E as [_ E]. apply N.leb_le in E.
  apply N.ltb_lt. lia.
Qed.

End StripFacts.

(** X4.  The normalized query never starts or ends with white space; on
    an ASCII query normalizing twice is normalizing once, so the matcher
    returns for the normalized query what it returns for the query. *)
Theorem normalize_trims_and_is_idempotent :
  forall (ucd : UnicodeData) (q : str),
    (forall c, hd_error (normalize q) = Some c
               \/ hd_error (rev (normalize q)) = Some c ->
               isspace c = false)
    /\ (forallb is_ascii q = true ->
        normalize (normalize q) = normalize q
        /\ lookup_found (normalize q) = lookup_found q).
Proof.
  intros ucd q. split.
  - intros c [H|H].
    + exact (StripFacts.strip_head (lower q) c H).
    + exact (StripFacts.strip_last (lower q) c H).
  - intros Hq.
    assert (E : normalize (normalize q) = normalize q).
    { unfold normalize. rewrite (PyStrFacts.lower_ascii q Hq).
      assert (A : forallb is_ascii (strip (map ascii_tolower q)) = true).
      { apply forallb_forall. intros c Hc. apply StripFacts.strip_incl in Hc.
        apply in_map_iff in Hc as (d & <- & Hd).
        apply StripFacts.ascii_tolower_ascii.
        rewrite forallb_forall in Hq. now apply Hq. }
      rewrite (PyStrFacts.lower_ascii _ A).
      replace (map ascii_tolower (strip (map ascii_tolower q)))
        with (strip (map ascii_tolower q)); [apply StripFacts.strip_idem|].
      rewrite <- (map_id (strip (map ascii_tolower q))) at 1.
      apply map_ext_in. intros c Hc. apply StripFacts.strip_incl in Hc.
      apply in_map_iff in Hc as (d & <- & _).
      symmetry. apply StripFacts.ascii_tolower_idem. }
    split; [exact E|]. unfold lookup_found.
    change (strip (lower (normalize q))) with (normalize (normalize q)).
    now rewrite E.
Qed.

Lemma normalize_trims_and_is_idempotent_witness :
  normalize (ucd := latin1) (normalize (ucd := latin1) (py "  Alve Don  "))
  = normalize (ucd := latin1) (py "  Alve Don  ")
  /\ normalize (ucd := latin1) (py "  Alve Don  ") = py "alve don".
Proof.
  split.
  - apply (proj2 (normalize_trims_and_is_idempotent latin1 (py "  Alve Don  "))).
    reflexivity.
  - reflexivity.
Defined.

(** ** Further properties of the reference-link builder *)

Module UrlFacts.
Import Codecs Urllib CodecFacts.

Ltac Zify.zify_post_hook ::= Z.to_euclidean_division_equations.

Lemma search_fass_web_ok (q : str) (w : web_info) :
  search_fass_web q = Ok w ->
  exists bs,
    utf8_encode q = Ok bs /\ octets bs
    /\ search_url w = py "https://fass.se/search?query=" ++ quote_from_bytes bs (py "/")
    /\ Decode.unquote (quote_from_bytes bs (py "/")) = Some q.
Proof.
  intros H. destruct (encodable q) eqn:He.
  - destruct (utf8_encode_decode q He) as (bs & E & O & D).
    exists bs. unfold search_fass_web, quote in H. rewrite E in H. cbn [bind] in H.
    injection H as <-. repeat split; try assumption.
    unfold Decode.unquote. now rewrite QuoteFacts.percent_decode_quote.
  - destruct (search_fass_web_raises q He) as (c & _ & _ & R). congruence.
Qed.

Lemma hex_digit_chars (n : N) :
  n < 16 -> always_safe (hex_digit n) = true /\ is_upper_hex (hex_digit n) = true.
Proof.
  intros H. destruct n as [|p]; [split; reflexivity|].
  do 4 (destruct p as [p|p|]; try (split; reflexivity)); lia.
Qed.

Lemma quoter_cases (b : N) :
  b < 256 ->
  (quoter (py "/") b = [b] /\ b < 128 /\ b <> 37 /\ url_char b = true)
  \/ (exists h1 h2, quoter (py "/") b = [37; h1; h2]
                    /\ always_safe h1 = true /\ always_safe h2 = true
                    /\ is_upper_hex h1 = true /\ is_upper_hex h2 = true).
Proof.
  intros Hb. unfold quoter.
  destruct (always_safe b || existsb (N.eqb b) (py "/")) eqn:E.
  - left. destruct (QuoteFacts.kept_byte b E) as (H1 & H2 & _).
    repeat split; try assumption. unfold url_char.
    apply orb_true_iff in E as [E|E]; [now rewrite E|].
    apply orb_true_iff. right. simpl in E. rewrite orb_false_r in E.
    apply N.eqb_eq in E. now subst.
  - right. exists (hex_digit (b / 16)), (hex_digit (b mod 16)).
    destruct (hex_digit_chars (b / 16)) as [? ?]; [lia|].
    destruct (hex_digit_chars (b mod 16)) as [? ?]; [lia|]. auto.
Qed.

Lemma quote_from_bytes_cons (b : N) (bs : bytes) :
  quote_from_bytes (b :: bs) (py "/") = quoter (py "/") b ++ quote_from_bytes bs (py "/").
Proof. reflexivity. Qed.

Lemma quote_shape (bs : bytes) :
  octets bs ->
  forallb url_char (quote_from_bytes bs (py "/")) = true
  /\ well_escaped (quote_from_bytes bs (py "/")) = true.
Proof.
  induction 1 as [|b bs Hb _ [IH1 IH2]]; [split; reflexivity|].
  rewrite quote_from_bytes_cons.
  destruct (quoter_cases b Hb) as [(-> & _ & N37 & U) | (h1 & h2 & -> & S1 & S2 & X1 & X2)].
  - split.
    + cbn [app forallb]. now rewrite U, IH1.
    + cbn [app well_escaped]. apply N.eqb_neq in N37. now rewrite N37.
  - split.
    + cbn [app forallb]. unfold url_char at 2 3. rewrite S1, S2, IH1. reflexivity.
    + cbn [app well_escaped]. rewrite N.eqb_refl, X1, X2, IH2. reflexivity.
Qed.

Lemma utf8_encode_ascii (s : str) :
  forallb PyStr.is_ascii s = true -> utf8_encode s = Ok s.
Proof.
  induction s as [|c s IH]; simpl; [reflexivity|].
  intros H. apply andb_true_iff in H as [Hc Hs]. rewrite (IH Hs).
  unfold utf8_encode_cp. unfold PyStr.is_ascii in Hc. rewrite Hc. reflexivity.
Qed.

Lemma utf8_encode_cp_length (c : codepoint) (bs : bytes) :
  utf8_encode_cp c = Ok bs -> (1 <= List.length bs <= 4)%nat.
Proof.
  unfold utf8_encode_cp.
  repeat match goal with
  | |- context [if ?t then _ else _] => destruct t
  end; intros H; try discriminate; injection H as <-; simpl; lia.
Qed.

Lemma utf8_encode_length (s : str) (bs : bytes) :
  utf8_encode s = Ok bs ->
  (List.length s <= List.length bs <= 4 * List.length s)%nat.
Proof.
  revert bs. induction s as [|c s IH]; simpl; intros bs H.
  - injection H as <-. simpl. lia.
  - destruct (utf8_encode_cp c) as [b1|] eqn:E1; [|discriminate].
    destruct (utf8_encode s) as [b2|] eqn:E2; [|discriminate].
    cbn [bind] in H. injection H as <-.
    pose proof (utf8_encode_cp_length c b1 E1).
    pose proof (IH b2 eq_refl). rewrite length_app. lia.
Qed.

Lemma quote_from_bytes_length (bs : bytes) :
  (List.length bs <= List.length (quote_from_bytes bs (py "/"))
   <= 3 * List.length bs)%nat.
Proof.
  induction bs as [|b bs IH]; [simpl; lia|].
  rewrite quote_from_bytes_cons, length_app. unfold quoter.
  destruct (always_safe b || existsb (N.eqb b) (py "/")); simpl List.length; lia.
Qed.

Lemma search_url_shape (q : str) (w : web_info) :
  search_fass_web q = Ok w ->
  forallb url_char (search_url w) = true
  /\ well_escaped (search_url w) = true
  /\ forallb PyStr.is_ascii (search_url w) = true.
Proof.
  intros H.
  destruct (search_fass_web_ok q w H) as (bs & _ & O & U & _).
  destruct (quote_shape bs O) as [C E].
  assert (A : forallb url_char (search_url w) = true).
  { rewrite U, forallb_app, C. reflexivity. }
  split; [exact A|]. split.
  - rewrite U. exact E.
  - rewrite forallb_forall in *. intros c Hc. apply A in Hc.
    unfold url_char in Hc. apply orb_true_iff in Hc as [Hc|Hc].
    + apply N.ltb_lt. apply (QuoteFacts.kept_byte c). now rewrite Hc.
    + simpl in Hc. unfold PyStr.is_ascii.
      repeat (apply orb_true_iff in Hc as [Hc|Hc];
              [apply N.eqb_eq in Hc; now subst|]).
      discriminate.
Qed.

Lemma search_fass_web_ok_encodable (q : str) (w : web_info) :
  search_fass_web q = Ok w -> encodable q = true.
Proof.
  intros H. destruct (encodable q) eqn:He; [reflexivity|].
  destruct (search_fass_web_raises q He) as (c & _ & _ & R). congruence.
Qed.

Lemma ascii_is_encodable (s : str) :
  forallb PyStr.is_ascii s = true -> encodable s = true.
Proof.
  unfold encodable. rewrite !forallb_forall. intros H c Hc. apply H in Hc.
  unfold PyStr.is_ascii in Hc. apply N.ltb_lt in Hc.
  unfold scalar_value, is_surrogate. decide_tests; reflexivity.
Qed.

End UrlFacts.

(** X5.  The builder keeps queries apart: two queries for which it
    returns the same URL are the same query, letter case and white space
    included. *)
Theorem search_url_is_injective :
  forall (q1 q2 : str) (w1 w2 : web_info),
    search_fass_web q1 = Ok w1 -> search_fass_web q2 = Ok w2 ->
    (search_url w1 = search_url w2 -> q1 = q2)
    /\ (q1 <> q2 -> search_url w1 <> search_url w2).
Proof.
  intros q1 q2 w1 w2 H1 H2.
  assert (G : search_url w1 = search_url w2 -> q1 = q2).
  { destruct (UrlFacts.search_fass_web_ok q1 w1 H1) as (b1 & _ & _ & U1 & D1).
    destruct (UrlFacts.search_fass_web_ok q2 w2 H2) as (b2 & _ & _ & U2 & D2).
    rewrite U1, U2. intros E. apply app_inv_head in E.
    rewrite E in D1. congruence. }
  split; [exact G|]. intros N E. apply N, G, E.
Qed.

Lemma search_url_is_injective_witness :
  exists w1 w2,
    search_fass_web (py "Alvedon") = Ok w1
    /\ search_fass_web (py "alvedon ") = Ok w2
    /\ search_url w1 <> search_url w2.
Proof.
  eexists. eexists. split; [reflexivity|]. split; [reflexivity|].
  apply (proj2 (search_url_is_injective (py "Alvedon") (py "alvedon ") _ _
                  eq_refl eq_refl)).
  discriminate.
Defined.

(** X6.  Every URL the builder returns is made of ASCII letters, digits,
    [_.-~] and [/ : ? = %] only, and each [%] in it starts an escape of two
    upper-case hexadecimal digits: no space, [#], [&], [+] or non-ASCII
    character gets through. *)
Theorem search_url_is_well_formed :
  forall (q : str) (w : web_info),
    search_fass_web q = Ok w ->
    forallb url_char (search_url w) = true
    /\ well_escaped (search_url w) = true
    /\ forallb is_ascii (search_url w) = true.
Proof.
  intros q w H. destruct (UrlFacts.search_url_shape q w H) as (A & E & I).
  auto.
Qed.

Lemma search_url_is_well_formed_witness :
  exists w,
    search_fass_web (py "a b#c&d+" ++ [0xE5; 0x1F517]) = Ok w
    /\ forallb url_char (search_url w) = true
    /\ well_escaped (search_url w) = true
    /\ forallb is_ascii (search_url w) = true.
Proof.
  eexists. split; [reflexivity|].
  apply (search_url_is_well_formed (py "a b#c&d+" ++ [0xE5; 0x1F517])).
  reflexivity.
Defined.

(** X7.  A query of letters, digits, [_.-~] and [/] only goes into the
    URL as it is: the URL is the template followed by the query. *)
Theorem safe_query_is_not_quoted :
  forall (q : str),
    forallb (fun c => Urllib.always_safe c || (c =? 47)) q = true ->
    exists w,
      search_fass_web q = Ok w
      /\ search_url w = py "https://fass.se/search?query=" ++ q.
Proof.
  intros q H.
  assert (K : forall c, In c q ->
                Urllib.always_safe c || existsb (N.eqb c) (py "/") = true).
  { intros c Hc. rewrite forallb_forall in H. apply H in Hc.
    simpl. now rewrite orb_false_r. }
  assert (A : forallb is_ascii q = true).
  { apply forallb_forall. intros c Hc. apply N.ltb_lt.
    now apply (QuoteFacts.kept_byte c), K. }
  assert (Q : Urllib.quote_from_bytes q (py "/") = q).
  { clear H A. induction q as [|c q IH]; [reflexivity|].
    rewrite UrlFacts.quote_from_bytes_cons, IH by (intros; apply K; now right).
    unfold Urllib.quoter. rewrite K by now left. reflexivity. }
  eexists. unfold search_fass_web, Urllib.quote.
  rewrite (UrlFacts.utf8_encode_ascii q A). cbn [bind]. rewrite Q.
  split; reflexivity.
Qed.

Lemma safe_query_is_not_quoted_witness :
  exists w,
    search_fass_web (py "Ipren_400/dag") = Ok w
    /\ search_url w = py "https://fass.se/search?query=Ipren_400/dag".
Proof.
  apply (safe_query_is_not_quoted (py "Ipren_400/dag")). reflexivity.
Defined.

(** X8.  The URL is the 29 characters of the template and at least one,
    at most twelve characters for each code point of the query. *)
Theorem search_url_length :
  forall (q : str) (w : web_info),
    search_fass_web q = Ok w ->
    (29 + List.length q <= List.length (search_url w) <= 29 + 12 * List.length q)%nat.
Proof.
  intros q w H.
  destruct (UrlFacts.search_fass_web_ok q w H) as (bs & E & _ & U & _).
  pose proof (UrlFacts.utf8_encode_length q bs E).
  pose proof (UrlFacts.quote_from_bytes_length bs).
  rewrite U, length_app.
  change (List.length (py "https://fass.se/search?query=")) with 29%nat. lia.
Qed.

Lemma search_url_length_witness :
  exists w,
    search_fass_web [0x1F517; 0x61] = Ok w
    /\ (29 + 2 <= List.length (search_url w) <= 29 + 12 * 2)%nat.
Proof.
  eexists. split; [reflexivity|].
  apply (search_url_length [0x1F517; 0x61]). reflexivity.
Defined.

(** ** Further properties of the formatter and the entry point *)

Section TextFacts.
Context {ucd : UnicodeData}.

Lemma do_title_lowercase_tail (before s : str) :
  forallb ascii_islower s = true -> do_title true before s = s.
Proof.
  revert before. induction s as [|c s IH]; intros before; simpl; [reflexivity|].
  intros H. apply andb_true_iff in H as [Hc Hs].
  assert (A : is_ascii c = true /\ ascii_isupper c = false /\ (c =? 0x3A3) = false).
  { unfold ascii_islower in Hc. apply andb_true_iff in Hc as [H1 H2].
    apply N.leb_le in H1, H2. unfold is_ascii, ascii_isupper.
    repeat split; CodecFacts.decide_tests; reflexivity. }
  destruct A as (A1 & A2 & A3).
  unfold lower_ucs4, to_lower_full, ascii_tolower, is_cased.
  rewrite A1, A2, A3, Hc, orb_true_r. simpl. now rewrite IH.
Qed.

(** [title] of a word of lower-case ASCII letters raises its first
    letter and nothing else. *)
Lemma title_lowercase_word (c : codepoint) (s : str) :
  forallb ascii_islower (c :: s) = true -> title (c :: s) = (c - 32) :: s.
Proof.
  simpl. intros H. apply andb_true_iff in H as [Hc Hs].
  unfold title. simpl.
  assert (A : is_ascii c = true).
  { unfold ascii_islower in Hc. apply andb_true_iff in Hc as [H1 H2].
    apply N.leb_le in H1, H2. unfold is_ascii. CodecFacts.decide_tests; reflexivity. }
  unfold to_title_full, ascii_toupper, is_cased. rewrite A, Hc, orb_true_r.
  simpl. now rewrite do_title_lowercase_tail.
Qed.

Lemma Ok_inj {A : Type} (a b : A) : Ok a = Ok b -> a = b.
Proof. congruence. Qed.

Lemma encodable_app (a b : str) :
  encodable (a ++ b) = encodable a && encodable b.
Proof. apply forallb_app. Qed.

Lemma directory_record_encodable (name : str) (rec : info) :
  In (name, rec) get_common_medications ->
  name <> []
  /\ encodable (join nl (found_lines (Some (name, rec)))) = true.
Proof.
  intros H. each_entry H; (split; [discriminate | reflexivity]).
Qed.

Lemma lookup_medication_ok (q text : str) :
  lookup_medication q = Ok text ->
  exists w, search_fass_web q = Ok w.
Proof.
  unfold lookup_medication. destruct (search_fass_web q) as [w|e]; [|discriminate].
  intros _. now exists w.
Qed.

(** Whatever [lookup_medication] returns can be encoded as UTF-8. *)
Lemma lookup_medication_encodable (q text : str) :
  lookup_medication q = Ok text -> encodable text = true.
Proof.
  intros H. destruct (lookup_medication_ok q text H) as (w & E).
  rewrite (lookup_medication_text q w E) in H. apply Ok_inj in H. rewrite <- H.
  clear H text.
  pose proof (UrlFacts.search_fass_web_ok_encodable q w E) as Hq.
  destruct (UrlFacts.search_url_shape q w E) as (_ & _ & A).
  apply UrlFacts.ascii_is_encodable in A.
  assert (B : encodable (join nl ((py "## Swedish Medication Lookup: " ++ q ++ nl)
                                  :: found_lines (lookup_found q))) = true).
  { destruct (lookup_found q) as [[name rec]|] eqn:F.
    - destruct (found_in_directory q _ F) as [He _].
      destruct (directory_record_encodable name rec He) as [_ R].
      change (join nl ((py "## Swedish Medication Lookup: " ++ q ++ nl)
                       :: found_lines (Some (name, rec))))
        with ((py "## Swedish Medication Lookup: " ++ q ++ nl)
              ++ nl ++ join nl (found_lines (Some (name, rec)))).
      rewrite !encodable_app, Hq, R. reflexivity.
    - cbn [found_lines join]. rewrite !encodable_app, Hq. reflexivity. }
  rewrite !encodable_app, B, A. reflexivity.
Qed.
End TextFacts.

(** X9.  The whole text for a query that matches: the header with the raw
    query, the subheader with the canonical name, its first letter
    raised, and the brands joined by a comma and a space, the four
    labelled lines, an empty line, and the closing lines around the URL. *)
Theorem matched_text_layout :
  forall (ucd : UnicodeData) (q name : str) (rec : info),
    encodable q = true ->
    lookup_found q = Some (name, rec) ->
    exists c rest w,
      name = c :: rest
      /\ search_fass_web q = Ok w
      /\ lookup_medication q
         = Ok (py "## Swedish Medication Lookup: " ++ q ++ nl ++ nl
               ++ py "### " ++ [c - 32] ++ rest ++ py " ("
               ++ join (py ", ") (brands rec) ++ py ")" ++ nl ++ nl
               ++ py "**Use:** " ++ use rec ++ nl
               ++ py "**Dosage:** " ++ dose rec ++ nl
               ++ py "**OTC:** " ++ otc_text (otc rec) ++ nl
               ++ py "**Warnings:** " ++ warnings rec ++ nl ++ nl
               ++ py "### Full Information on FASS" ++ nl
               ++ [0x1F517] ++ py " " ++ search_url w ++ nl ++ nl
               ++ py "---" ++ nl
               ++ py "*This is informational only. Always consult healthcare professionals for medical advice.*"
               ++ nl ++ py "*Sources: FASS.se, L" ++ [0xE4] ++ py "kemedelsverket*").
Proof.
  intros ucd q name rec He Hf.
  destruct (search_fass_web_encodable q He) as (enc & _ & E & _).
  destruct (found_in_directory q _ Hf) as [Hin _].
  destruct (directory_lowercase name rec Hin) as (L & _ & _).
  destruct (directory_record_encodable name rec Hin) as [Hn _].
  destruct name as [|c rest]; [contradiction|].
  exists c, rest. eexists. split; [reflexivity|]. split; [exact E|].
  rewrite (lookup_medication_text q _ E), Hf.
  cbn [found_lines join search_url]. rewrite (title_lowercase_word c rest L).
  f_equal. rewrite <- !app_assoc. reflexivity.
Qed.

Lemma matched_text_layout_witness :
  exists w,
    search_fass_web (py " IPREN") = Ok w
    /\ lookup_medication (ucd := latin1) (py " IPREN")
       = Ok (py "## Swedish Medication Lookup:  IPREN" ++ nl ++ nl
             ++ py "### Ibuprofen (Ipren, Ibumetin, Brufen)" ++ nl ++ nl
             ++ py "**Use:** Pain, inflammation, fever" ++ nl
             ++ py "**Dosage:** Adult: 200-400mg every 4-6h, max 1200mg/day (OTC)" ++ nl
             ++ py "**OTC:** Yes (receptfritt)" ++ nl
             ++ py "**Warnings:** Take with food, avoid if stomach ulcers or kidney issues"
             ++ nl ++ nl
             ++ py "### Full Information on FASS" ++ nl
             ++ [0x1F517] ++ py " " ++ search_url w ++ nl ++ nl
             ++ py "---" ++ nl
             ++ py "*This is informational only. Always consult healthcare professionals for medical advice.*"
             ++ nl ++ py "*Sources: FASS.se, L" ++ [0xE4] ++ py "kemedelsverket*").
Proof.
  destruct (matched_text_layout latin1 (py " IPREN") (py "ibuprofen") _ eq_refl eq_refl)
    as (c & rest & w & N & E & T).
  exists w. split; [exact E|]. rewrite T. injection N as <- <-. reflexivity.
Defined.

(** ** The entry point on a standard output with a codec *)

Section StdoutFacts.
Context {codec : StdoutCodec}.









Lemma write_keeps_encodable (s out : str) :
  encodable out = true -> encodable s = true ->
  encodable (fst (write s out)) = true.
Proof.
  intros Ho Hs. unfold write.
  destruct (find (fun c => negb (stdout_encodes c)) s); simpl; [assumption|].
  now rewrite encodable_app, Ho, Hs.
Qed.

Lemma io_bind_keeps_encodable {A B : Type} (m : io A) (k : A -> io B) :
  (forall out, encodable out = true -> encodable (fst (m out)) = true) ->
  (forall a out, encodable out = true -> encodable (fst (k a out)) = true) ->
  forall out, encodable out = true -> encodable (fst (io_bind m k out)) = true.
Proof.
  intros Hm Hk out Ho. unfold io_bind. specialize (Hm out Ho).
  destruct (m out) as [out' [a|e]]; simpl in *; [now apply Hk | assumption].
Qed.

Lemma print_keeps_encodable (text out : str) :
  encodable text = true -> encodable out = true ->
  encodable (fst (print text out)) = true.
Proof.
  intros Ht Ho. unfold print. apply io_bind_keeps_encodable; [| |assumption].
  - intros o H. now apply write_keeps_encodable.
  - intros _ o H. now apply write_keeps_encodable.
Qed.
End StdoutFacts.


Section MainFacts.
Context {ucd : UnicodeData} {codec : StdoutCodec}.




End MainFacts.




(** X10.  The program name and the way the words are split into
    arguments do not matter: two adjacent arguments give what the one
    argument made of them and a space gives, on any standard output. *)
Theorem main_depends_on_joined_arguments :
  forall (ucd : UnicodeData) (codec : StdoutCodec)
         (prog prog' a b : str) (rest : list str),
    main (prog :: a :: b :: rest) = main (prog' :: (a ++ py " " ++ b) :: rest).
Proof.
  intros ucd codec prog prog' a b rest. unfold main, main_block.
  cbn [List.length Nat.ltb Nat.leb tl].
  replace (join (py " ") ((a ++ py " " ++ b) :: rest))
    with (join (py " ") (a :: b :: rest)); [reflexivity|].
  destruct rest as [|x rest]; [reflexivity|].
  change (join (py " ") (a :: b :: x :: rest))
    with (a ++ py " " ++ b ++ py " " ++ join (py " ") (x :: rest)).
  change (join (py " ") ((a ++ py " " ++ b) :: x :: rest))
    with ((a ++ py " " ++ b) ++ py " " ++ join (py " ") (x :: rest)).
  now rewrite <- !app_assoc.
Qed.

(** X11.  Whatever the program writes to standard output, for any
    arguments and any codec of the stream, is text that UTF-8 can encode:
    writing it to a UTF-8 stream cannot fail. *)
Theorem stdout_is_encodable :
  forall (ucd : UnicodeData) (codec : StdoutCodec) (argv : list str),
    encodable (stdout (main argv)) = true.
Proof.
  intros ucd codec argv.
  assert (K : encodable (fst (main_block argv [])) = true).
  { unfold main_block. destruct (Nat.ltb (List.length argv) 2).
    - apply io_bind_keeps_encodable;
        [intros o Ho; now apply print_keeps_encodable | | reflexivity].
      intros _ o1 H1. apply io_bind_keeps_encodable;
        [intros o Ho; now apply print_keeps_encodable | | exact H1].
      intros _ o2 H2. apply io_bind_keeps_encodable;
        [intros o Ho; now apply print_keeps_encodable | | exact H2].
      intros _ o3 H3. exact H3.
    - unfold io_bind, io_lift.
      destruct (lookup_medication (join (py " ") (tl argv))) as [text|e] eqn:E;
        [|reflexivity].
      apply print_keeps_encodable; [|reflexivity].
      now apply (lookup_medication_encodable _ _ E). }
  unfold main. destruct (main_block argv []) as [out [u|[c|n]]]; exact K.
Qed.
